(** * figipy: range normalisation, filter building and the OpenFIGI client

    A shallow embedding of [figipy/range.py] and [figipy/core.py] together
    with the parts of the Python runtime those files lean on (truthiness,
    [datetime.date] arithmetic, [strftime], the status predicates of the
    [requests] library). *)

From Stdlib Require Import ZArith Lia List Ascii String Bool.
From stdpp Require Import gmap strings list fin_maps.

Local Open Scope Z_scope.

Set Warnings "-register-all".

(** ** Exceptions and the result monad *)

(** The exception classes that the embedded code can raise.  The three
    classes of [figipy/error.py] derive from [AssertionError]. *)
Inductive exn : Type :=
  | AssertionError
  | RateLimitError
  | PayloadTooLargeError
  | AuthenticationError
  | HTTPError
  | JSONDecodeError
  | ConnectionError
  | ValueError
  | KeyError (key : string)
  | TypeError
  | AttributeError
  | OverflowError.

(** [issubclass(e, AssertionError)] *)
Definition is_assertion_error (e : exn) : bool :=
  match e with
  | AssertionError | RateLimitError | PayloadTooLargeError
  | AuthenticationError => true
  | _ => false
  end.

Inductive result (A : Type) : Type :=
  | Ok (a : A)
  | Raise (e : exn).
Arguments Ok {A} a.
Arguments Raise {A} e.

Definition bind {A B : Type} (r : result A) (k : A -> result B) : result B :=
  match r with
  | Ok a => k a
  | Raise e => Raise e
  end.

Declare Scope py_scope.
Delimit Scope py_scope with py.
Notation "'let*' x ':=' r 'in' k" := (bind r (fun x => k))
  (at level 10, x pattern, r at level 100, k at level 200) : py_scope.
Local Open Scope py_scope.

(** [assert b] *)
Definition py_assert (b : bool) : result unit :=
  if b then Ok tt else Raise AssertionError.

Definition succeeds {A : Type} (r : result A) : bool :=
  match r with Ok _ => true | Raise _ => false end.

(** ** Truthiness *)

(** Python's [bool(x)] on the types of values that reach an [or], an [if],
    [any] or [all] in the embedded code. *)
Class Truthy (A : Type) := truthy : A -> bool.

#[global] Instance truthy_bool : Truthy bool := fun b => b.
#[global] Instance truthy_Z : Truthy Z := fun z => negb (z =? 0).
#[global] Instance truthy_string : Truthy string :=
  fun s => match s with EmptyString => false | String _ _ => true end.
(** [None] is falsy; a present value has the truthiness of its type. *)
#[global] Instance truthy_option {A} `{Truthy A} : Truthy (option A) :=
  fun o => match o with None => false | Some a => truthy a end.
(** A two-element tuple is never empty, hence always truthy. *)
#[global] Instance truthy_pair {A B} : Truthy (A * B) := fun _ => true.

(** [x or y] *)
Definition py_or {A} `{Truthy A} (x y : A) : A := if truthy x then x else y.

(** [x or y] where [y] is evaluated only when [x] is falsy and may raise. *)
Definition py_or_lazy {A} `{Truthy A} (x : A) (y : result A) : result A :=
  if truthy x then Ok x else y.

(** [any(t)] and [all(t)] for a tuple [t]. *)
Definition py_any {A} `{Truthy A} (t : list A) : bool := existsb truthy t.
Definition py_all {A} `{Truthy A} (t : list A) : bool := forallb truthy t.

(** [a >= b] on the types that ranges are made of. *)
Class PyGe (A : Type) := py_ge : A -> A -> bool.
#[global] Instance py_ge_Z : PyGe Z := fun a b => b <=? a.

(** ** The [datetime.date] model *)

Module Calendar.

Record date : Type := mkdate { year : Z; month : Z; day : Z }.

#[global] Instance date_eq_dec : EqDecision date.
Proof. solve_decision. Defined.

(** [date] defines no [__bool__] or [__len__]: every date is truthy. *)
#[global] Instance truthy_date : Truthy date := fun _ => true.

Definition MINYEAR : Z := 1.
Definition MAXYEAR : Z := 9999.

Definition _DAYS_IN_MONTH : list Z :=
  [-1; 31; 28; 31; 30; 31; 30; 31; 31; 30; 31; 30; 31].
Definition _DAYS_BEFORE_MONTH : list Z :=
  [-1; 0; 31; 59; 90; 120; 151; 181; 212; 243; 273; 304; 334].

Definition tbl (l : list Z) (i : Z) : Z := nth (Z.to_nat i) l (-1).

Definition _is_leap (y : Z) : bool :=
  (y mod 4 =? 0) && (negb (y mod 100 =? 0) || (y mod 400 =? 0)).

Definition _days_before_year (y : Z) : Z :=
  let y := y - 1 in y * 365 + y / 4 - y / 100 + y / 400.

Definition _days_in_month (y m : Z) : Z :=
  if (m =? 2) && _is_leap y then 29 else tbl _DAYS_IN_MONTH m.

Definition b2z (b : bool) : Z := if b then 1 else 0.

Definition _days_before_month (y m : Z) : Z :=
  tbl _DAYS_BEFORE_MONTH m + b2z ((2 <? m) && _is_leap y).

Definition _ymd2ord (y m d : Z) : Z :=
  _days_before_year y + _days_before_month y m + d.

Definition _DI400Y : Z := 146097.
Definition _DI100Y : Z := 36524.
Definition _DI4Y : Z := 1461.

(** The month and day of the [n]-th day (counting from 0) of a year,
    the tail of [_ord2ymd]. *)
Definition month_day (leapyear : bool) (n : Z) : Z * Z :=
  let month := Z.shiftr (n + 50) 5 in
  let preceding := tbl _DAYS_BEFORE_MONTH month + b2z ((2 <? month) && leapyear) in
  if n <? preceding then
    let month := month - 1 in
    let preceding :=
      preceding - (tbl _DAYS_IN_MONTH month + b2z ((month =? 2) && leapyear)) in
    (month, n - preceding + 1)
  else (month, n - preceding + 1).

Definition _ord2ymd (n : Z) : date :=
  let n := n - 1 in
  let n400 := n / _DI400Y in
  let n := n mod _DI400Y in
  let y := n400 * 400 + 1 in
  let n100 := n / _DI100Y in
  let n := n mod _DI100Y in
  let n4 := n / _DI4Y in
  let n := n mod _DI4Y in
  let n1 := n / 365 in
  let n := n mod 365 in
  let y := y + (n100 * 100 + n4 * 4 + n1) in
  if (n1 =? 4) || (n100 =? 4) then mkdate (y - 1) 12 31
  else
    let leapyear := (n1 =? 3) && (negb (n4 =? 24) || (n100 =? 3)) in
    let '(m, d) := month_day leapyear n in
    mkdate y m d.

(** The month tables, with the leap flag in place of the year. *)
Definition dbm_flag (leap : bool) (m : Z) : Z :=
  tbl _DAYS_BEFORE_MONTH m + b2z ((2 <? m) && leap).
Definition dim_flag (leap : bool) (m : Z) : Z :=
  if (m =? 2) && leap then 29 else tbl _DAYS_IN_MONTH m.

(** What the tail of [_ord2ymd] owes for the [n]-th day of a year. *)
Definition month_day_ok (leap : bool) (n : Z) : bool :=
  let '(m, d) := month_day leap n in
  (1 <=? m) && (m <=? 12) && (1 <=? d) && (d <=? dim_flag leap m)
  && (dbm_flag leap m + d =? n + 1).

Definition _MAXORDINAL : Z := 3652059.

Definition toordinal (d : date) : Z := _ymd2ord (year d) (month d) (day d).
Definition fromordinal (n : Z) : date := _ord2ymd n.

(** The check made by the [date] constructor. *)
Definition valid (d : date) : bool :=
  (MINYEAR <=? year d) && (year d <=? MAXYEAR)
  && (1 <=? month d) && (month d <=? 12)
  && (1 <=? day d) && (day d <=? _days_in_month (year d) (month d)).

(** [d + timedelta(days=k)] *)
Definition add_days (d : date) (k : Z) : result date :=
  let o := toordinal d + k in
  if (0 <? o) && (o <=? _MAXORDINAL) then Ok (fromordinal o)
  else Raise OverflowError.

(** [d - timedelta(days=k)], which the library computes as
    [d + timedelta(-k)]. *)
Definition sub_days (d : date) (k : Z) : result date := add_days d (- k).

(** [d1 >= d2]: dates compare as the triples (year, month, day). *)
Definition _cmp (d1 d2 : date) : comparison :=
  match year d1 ?= year d2 with
  | Eq => match month d1 ?= month d2 with
          | Eq => day d1 ?= day d2
          | c => c
          end
  | c => c
  end.

#[global] Instance py_ge_date : PyGe date :=
  fun d1 d2 => match _cmp d1 d2 with Lt => false | _ => true end.

(** [timedelta(weeks=w).days] *)
Definition weeks (w : Z) : Z := 7 * w.

(** *** [strftime("%Y-%m-%d")] *)

(** [date.strftime] hands the format to the C library of the platform.
    All of them write a year from 1000 on with its four digits; below 1000
    some pad the year with zeros to four digits and others (glibc) write
    it without padding. *)
Class Platform := pads_year : bool.

Definition zero_padding : Platform := true.
Definition glibc : Platform := false.

Definition digit (z : Z) : ascii := ascii_of_nat (48 + Z.to_nat (z mod 10)).

(** The decimal digits of [z], without leading zeros, in front of [acc]
    ([fuel] bounds the number of digits). *)
Fixpoint decimal (fuel : nat) (z : Z) (acc : string) : string :=
  match fuel with
  | O => acc
  | S fuel' =>
      let acc' := String (digit z) acc in
      if z <? 10 then acc' else decimal fuel' (z / 10) acc'
  end.

(** [%Y]: the year with century. *)
Definition fmt_Y `{pf : Platform} (y : Z) : string :=
  if (1000 <=? y) || pads_year then
    String (digit (y / 1000)) (String (digit (y / 100))
      (String (digit (y / 10)) (String (digit y) EmptyString)))
  else decimal 4 y EmptyString.

(** [%m] and [%d]: zero-padded to two digits. *)
Definition fmt_2 (z : Z) : string :=
  String (digit (z / 10)) (String (digit z) EmptyString).

Definition strftime_Ymd `{pf : Platform} (d : date) : string :=
  (fmt_Y (year d) ++ "-" ++ fmt_2 (month d) ++ "-" ++ fmt_2 (day d))%string.

(** Reading a [YYYY-MM-DD] string back: four digits, a hyphen, two
    digits, a hyphen, two digits, and nothing else. *)
Definition digit_val (c : ascii) : option Z :=
  let n := Z.of_nat (nat_of_ascii c) in
  if (48 <=? n) && (n <=? 57) then Some (n - 48) else None.

Fixpoint number (acc : Z) (cs : list ascii) : option Z :=
  match cs with
  | [] => Some acc
  | c :: cs' =>
      match digit_val c with
      | Some v => number (10 * acc + v) cs'
      | None => None
      end
  end.

Definition parse_Ymd (s : string) : option date :=
  match list_ascii_of_string s with
  | [y1; y2; y3; y4; h1; m1; m2; h2; d1; d2] =>
      if Ascii.eqb h1 "-" && Ascii.eqb h2 "-" then
        match number 0 [y1; y2; y3; y4], number 0 [m1; m2], number 0 [d1; d2] with
        | Some y, Some m, Some d => Some (mkdate y m d)
        | _, _, _ => None
        end
      else None
  | _ => None
  end.

End Calendar.

Import Calendar.

(** ** [figipy/range.py] *)

Module Range.

(** [NumberRange = Tuple[Optional[float], Optional[float]]].  Numeric
    bounds are modelled as integers, which Python accepts wherever a
    [float] is annotated (the tests of the repository use them). *)
Definition NumberRange : Type := option Z * option Z.

(** [DateRange = Tuple[Optional[datetime.date], Optional[datetime.date]]] *)
Definition DateRange : Type := option date * option date.

(** [o - delta] and [o + delta] for an [Optional[date]]: [None] has no
    arithmetic with a [timedelta]. *)
Definition opt_date_sub (o : option date) (k : Z) : result (option date) :=
  match o with
  | None => Raise TypeError
  | Some d => let* r := sub_days d k in Ok (Some r)
  end.

Definition opt_date_add (o : option date) (k : Z) : result (option date) :=
  match o with
  | None => Raise TypeError
  | Some d => let* r := add_days d k in Ok (Some r)
  end.

(** [o.strftime(DATE_FORMAT)] with [DATE_FORMAT = "%Y-%m-%d"]. *)
Definition opt_strftime `{pf : Platform} (o : option date) : result string :=
  match o with
  | None => Raise AttributeError
  | Some d => Ok (strftime_Ymd d)
  end.

Definition convert_date_range_to_string `{pf : Platform}
    (date_range : option DateRange)
  : result (option (list string)) :=
  match date_range with
  | None => Ok None
  | Some (first, second) =>
      let year_offset := weeks 52 in
      let* first' := py_or_lazy first (opt_date_sub second year_offset) in
      let* second' := py_or_lazy second (opt_date_add first year_offset) in
      let* s1 := opt_strftime first' in
      let* s2 := opt_strftime second' in
      Ok (Some [s1; s2])
  end.

Definition convert_number_range_to_string (number_range : option NumberRange)
  : option (list (option Z)) :=
  match number_range with
  | None => None
  | Some (first, second) =>
      let first' := py_or first None in
      let second' := py_or second None in
      Some [first'; second']
  end.

(** [end >= start] on two bounds of one type whose comparison always
    answers (integers, plain dates); comparing with [None] is a type
    error. *)
Definition opt_ge {A} `{PyGe A} (a b : option A) : result bool :=
  match a, b with
  | Some x, Some y => Ok (py_ge x y)
  | _, _ => Raise TypeError
  end.

Definition assert_data_range_is_valid {A} `{Truthy A} `{PyGe A}
    (data_range : option A * option A) : result unit :=
  let t := [fst data_range; snd data_range] in
  let* _ := py_assert (Nat.eqb (length t) 2) in
  let* _ := py_assert (py_any t) in
  if py_all t then
    let '(start, end_) := data_range in
    let* b := opt_ge end_ start in
    py_assert b
  else Ok tt.

(** A conversion result that is a list of two [YYYY-MM-DD] strings,
    the first reading as [lo] and the second as [hi]. *)
Definition renders (out : result (option (list string))) (lo hi : date) : Prop :=
  exists s1 s2, out = Ok (Some [s1; s2])
                /\ parse_Ymd s1 = Some lo /\ parse_Ymd s2 = Some hi.

End Range.

Import Range.

(** ** [figipy/core.py] *)

Module Core.

(** Decoded JSON documents and the values that are serialised into
    request bodies.  A JSON object is a finite map; the order of its keys
    is not represented. *)
Inductive pyval : Type :=
  | PNone
  | PBool (b : bool)
  | PInt (z : Z)
  | PStr (s : string)
  | PList (l : list pyval)
  | PDict (m : gmap string pyval).

Definition is_none (v : pyval) : bool :=
  match v with PNone => true | _ => false end.

(** [d.get(k)] *)
Definition dict_get (d : gmap string pyval) (k : string) : pyval :=
  default PNone (d !! k).

(** [len(v)] *)
Definition py_len (v : pyval) : result nat :=
  match v with
  | PList l => Ok (length l)
  | PStr s => Ok (String.length s)
  | PDict m => Ok (size m)
  | _ => Raise TypeError
  end.

(** The elements produced by [for part in v]; called only after
    [len(v)] succeeded. *)
Definition py_iter (v : pyval) : list pyval :=
  match v with
  | PList l => l
  | PStr s => map (fun c => PStr (String c EmptyString)) (list_ascii_of_string s)
  | PDict m => map (fun kv => PStr kv.1) (map_to_list m)
  | _ => []
  end.

Definition of_opt {A} (f : A -> pyval) (o : option A) : pyval :=
  match o with None => PNone | Some a => f a end.

Definition OPEN_FIGI_DEFAULT_URL : string := "https://api.openfigi.com".

Inductive MappingValues : Type :=
  | ID_TYPE
  | EXCHANGE_CODE
  | MIC_CODE
  | CURRENCY
  | MARKET_SECTOR_DESCRIPTION
  | SECURITY_TYPE
  | SECURITY_TYPE_2
  | STATE_CODE.

(** [values.value] *)
Definition value (v : MappingValues) : string :=
  match v with
  | ID_TYPE => "idType"
  | EXCHANGE_CODE => "exchCode"
  | MIC_CODE => "micCode"
  | CURRENCY => "currency"
  | MARKET_SECTOR_DESCRIPTION => "marketSecDes"
  | SECURITY_TYPE => "securityType"
  | SECURITY_TYPE_2 => "securityType2"
  | STATE_CODE => "stateCode"
  end.

Module OpenFIGIObject.

Record t : Type := mk {
  figi : pyval;
  security_type : pyval;
  security_type_2 : pyval;
  market_sector : pyval;
  exchange_code : pyval;
  ticker : pyval;
  name : pyval;
  id : pyval;
  share_class_figi : pyval;
  composite_figi : pyval;
  security_description : pyval;
  future_or_option_id : pyval;
  metadata : pyval
}.

(** Fields that are not passed to the constructor keep the dataclass
    default [None]. *)
Definition from_figi_data (data : gmap string pyval) : t :=
  {| figi := dict_get data "figipy";
     security_type := dict_get data "securityType";
     security_type_2 := dict_get data "securityType2";
     market_sector := dict_get data "marketSecDes";
     exchange_code := dict_get data "exchCode";
     ticker := PNone;
     name := dict_get data "name";
     id := dict_get data "id";
     share_class_figi := dict_get data "shareClassFIGI";
     composite_figi := dict_get data "compositeFIGI";
     security_description := dict_get data "securityDescription";
     future_or_option_id := dict_get data "uniqueIDFutOpt";
     metadata := PNone |}.

(** The wire keys read by [from_figi_data]. *)
Definition wire_keys : list string :=
  ["figipy"; "securityType"; "securityType2"; "marketSecDes"; "exchCode";
   "name"; "id"; "shareClassFIGI"; "compositeFIGI"; "securityDescription";
   "uniqueIDFutOpt"]%string.

(** The field-name table, entry by entry: a field of the result object
    reads a wire key when it is the value the item has under that key,
    and [None] when the item has no such key. *)
Definition reads (d : gmap string pyval) (key : string) (field : pyval) : Prop :=
  match d !! key with
  | Some v => field = v
  | None => field = PNone
  end.

End OpenFIGIObject.

Module OpenFIGIProperties.

Record t : Type := mk {
  exchange_code : option string;
  mic_code : option string;
  currency : option string;
  market_sector_description : option string;
  security_type : option string;
  security_type_2 : option string;
  include_unlisted_equities : option bool;
  option_type : option string;
  strike : option NumberRange;
  contract_size : option NumberRange;
  coupon : option NumberRange;
  expiration : option DateRange;
  maturity : option DateRange;
  state_code : option string
}.

(** [OpenFIGIProperties()]: every field at its default [None]. *)
Definition defaults : t :=
  mk None None None None None None None None None None None None None None.

(** [x in t] for a tuple of strings. *)
Definition py_in (x : option string) (tup : list string) : bool :=
  existsb (fun y => bool_decide (x = Some y)) tup.

Definition __post_init__ (self : t) : result unit :=
  let* _ :=
    if truthy (expiration self) then
      let* _ := py_assert (py_in (security_type_2 self) ["Option"; "Warrant"]%string) in
      match expiration self with
      | Some r => assert_data_range_is_valid r
      | None => Raise TypeError
      end
    else Ok tt in
  if truthy (maturity self) then
    let* _ := py_assert (py_in (security_type_2 self) ["Pool"]%string) in
    match maturity self with
    | Some r => assert_data_range_is_valid r
    | None => Raise TypeError
    end
  else Ok tt.

(** The shape of each of the two guarded blocks of [__post_init__]. *)
Definition block (subtype : option string) (allowed : list string)
    (r : option DateRange) : result unit :=
  if truthy r then
    let* _ := py_assert (py_in subtype allowed) in
    match r with
    | Some r => assert_data_range_is_valid r
    | None => Raise TypeError
    end
  else Ok tt.

(** The dataclass constructor: the generated [__init__] stores the
    fields and then runs [__post_init__]. *)
Definition new (fields : t) : result t :=
  let* _ := __post_init__ fields in Ok fields.

Definition num_list (l : list (option Z)) : pyval := PList (map (of_opt PInt) l).
Definition str_list (l : list string) : pyval := PList (map PStr l).

(** The dictionary display inside [as_filter], before the comprehension
    drops the entries whose value is [None]. *)
Definition items (self : t) (expiration' maturity' : option (list string))
  : list (string * pyval) :=
  [("exchCode", of_opt PStr (exchange_code self));
   ("micCode", of_opt PStr (mic_code self));
   ("currency", of_opt PStr (currency self));
   ("marketSecDes", of_opt PStr (market_sector_description self));
   ("securityType", of_opt PStr (security_type self));
   ("securityType2", of_opt PStr (security_type_2 self));
   ("includeUnlistedEquities", of_opt PBool (include_unlisted_equities self));
   ("optionType", of_opt PStr (option_type self));
   ("strike", of_opt num_list (convert_number_range_to_string (strike self)));
   ("contractSize",
    of_opt num_list (convert_number_range_to_string (contract_size self)));
   ("coupon", of_opt num_list (convert_number_range_to_string (coupon self)));
   ("expiration", of_opt str_list expiration');
   ("maturity", of_opt str_list maturity');
   ("stateCode", of_opt PStr (state_code self))]%string.

Definition as_filter `{pf : Platform} (self : t) : result (gmap string pyval) :=
  let* expiration' := convert_date_range_to_string (expiration self) in
  let* maturity' := convert_date_range_to_string (maturity self) in
  Ok (filter (fun kv => is_none kv.2 = false)
        (list_to_map (items self expiration' maturity'))).

(** The keys of the wire mapping. *)
Definition wire_keys : list string :=
  ["exchCode"; "micCode"; "currency"; "marketSecDes"; "securityType";
   "securityType2"; "includeUnlistedEquities"; "optionType"; "strike";
   "contractSize"; "coupon"; "expiration"; "maturity"; "stateCode"]%string.

(** *** The wire mapping, key by key *)







End OpenFIGIProperties.

(** *** The HTTP transport

    A request as handed to [session.request] (the body before
    [json.dumps]), and the response that call finally returns.  The
    retries the adapter makes on its own happen below this interface. *)
Record http_request : Type := mk_request {
  req_method : string;
  req_url : string;
  req_data : option (gmap string pyval);
  req_headers : gmap string string
}.

(** [json_body] is the decoded body of a response that carries a JSON
    object, and [None] when the body is not a JSON document, in which
    case [response.json()] raises.  Bodies that are JSON documents of
    another kind (a list, a string, a number, null) are not
    represented. *)
Record http_response : Type := mk_response {
  status_code : Z;
  json_body : option (gmap string pyval)
}.

(** [Response.raise_for_status] of the requests library raises for the
    client and server error classes, and [Response.ok] is its negation. *)
Definition is_error_status (r : http_response) : bool :=
  (400 <=? status_code r) && (status_code r <? 600).

Definition raise_for_status (r : http_response) : result unit :=
  if is_error_status r then Raise HTTPError else Ok tt.

Definition ok (r : http_response) : bool := negb (is_error_status r).

Definition json (r : http_response) : result (gmap string pyval) :=
  match json_body r with
  | Some d => Ok d
  | None => Raise JSONDecodeError
  end.

Inductive log_level : Type := WARNING | ERROR.

(** The outside world of a client: the responses the service is going to
    give, in order, the requests sent so far and the records logged so
    far. *)
Record world : Type := mk_world {
  pending : list http_response;
  sent : list http_request;
  logged : list (log_level * string)
}.

(** Computations that talk to the world and may raise. *)
Definition io (A : Type) : Type := world -> result A * world.

Definition ret {A} (a : A) : io A := fun w => (Ok a, w).
Definition throw {A} (e : exn) : io A := fun w => (Raise e, w).
Definition lift {A} (r : result A) : io A := fun w => (r, w).
Definition bind_io {A B} (m : io A) (k : A -> io B) : io B :=
  fun w => match m w with
           | (Ok a, w') => k a w'
           | (Raise e, w') => (Raise e, w')
           end.

Notation "'do' x '<-' m ';' k" := (bind_io m (fun x => k))
  (at level 10, x pattern, m at level 100, k at level 200) : py_scope.
Notation "'when' b 'then' m ';' k" :=
  (bind_io (if b then m else ret tt) (fun _ => k))
  (at level 10, b at level 100, m at level 100, k at level 200) : py_scope.

Definition log (lvl : log_level) (msg : string) : io unit :=
  fun w => (Ok tt, mk_world (pending w) (sent w) (logged w ++ [(lvl, msg)])).

Record session : Type := mk_session {
  retry_total : option Z;
  backoff_factor : Z;
  status_forcelist : list Z
}.

(** [session.request(method, url, data=..., headers=...)]: the request
    goes out and the next response of the service comes back; when the
    service has nothing more to say the connection fails.  The pending
    responses are those the call hands back to its caller: what the
    adapter of the session does with a status of its [status_forcelist]
    over https, retrying and in the end raising an exception of its own,
    lies below this interface. *)
Definition request (s : session) (rq : http_request) : io http_response :=
  fun w =>
    let w' := mk_world (tl (pending w)) (sent w ++ [rq]) (logged w) in
    match pending w with
    | r :: _ => (Ok r, w')
    | [] => (Raise ConnectionError, w')
    end.

Module OpenFIGIApi.

(** The class attributes, read from the environment when the class is
    created: [OPEN_FIGI_API_KEY] (absent when unset),
    [OPEN_FIGI_API_URL], the JSON boolean [OPEN_FIGI_RAISE_ON_ERROR]
    and the integer [OPEN_FIGI_API_RETRY_COUNT]. *)
Record class_attrs : Type := mk_class {
  API_KEY : option string;
  API_URL : string;
  API_RAISE_ON_ERROR : bool;
  API_RETRY_COUNT : Z
}.

(** The class attributes of a process with none of the four variables
    set. *)
Definition unset_environment : class_attrs :=
  mk_class None OPEN_FIGI_DEFAULT_URL false 2.

Record t : Type := mk {
  raise_on_error : option bool;
  api_retry_count : option Z;
  api_key : option string;
  api_url : option string
}.

Definition __init__ (cls : class_attrs)
    (raise_on_error : option bool) (api_key : option string)
    (api_url : option string) (api_retry_count : option Z) : t :=
  {| raise_on_error := py_or raise_on_error (Some (API_RAISE_ON_ERROR cls));
     api_retry_count := py_or api_retry_count (Some (API_RETRY_COUNT cls));
     api_key := py_or api_key (API_KEY cls);
     api_url := py_or api_url (Some (API_URL cls)) |}.

Definition create_session (self : t) : session :=
  {| retry_total := api_retry_count self;
     backoff_factor := 5;
     status_forcelist := [429] |}.

(** [str(x)] inside an f-string, for an optional string. *)
Definition fmt (o : option string) : string := default "None"%string o.

(** [self.api_key[:4] if self.api_key else '(NOT SUPPLIED)'] *)
Definition key_prefix (self : t) : string :=
  if truthy (api_key self) then substring 0 4 (fmt (api_key self))
  else "(NOT SUPPLIED)"%string.

(** The [headers] dictionary built by [_perform_request]. *)
Definition headers (self : t) : gmap string string :=
  let headers : gmap string string :=
    {[ "Content-Type"%string := "application/json"%string ]} in
  if truthy (api_key self)
  then <["X-OPENFIGI-APIKEY"%string := fmt (api_key self)]> headers
  else headers.

Definition _perform_request (self : t) (url method : string)
    (data : option (gmap string pyval)) (s : option session)
  : io (gmap string pyval) :=
  let s := default (create_session self) s in
  do response <- request s (mk_request method url data (headers self));
  when (status_code response =? 429) then
    (do _ <- log WARNING
       "Your application is being rate-limited, try to perform fewer requests";
     if truthy (raise_on_error self) then throw RateLimitError else ret tt);
  when (status_code response =? 413) then
    (do _ <- log WARNING
       "Your application requested too large of a payload, you may want to supply an API key";
     if truthy (raise_on_error self) then throw PayloadTooLargeError else ret tt);
  when (status_code response =? 403) then
    (do _ <- log ERROR
       ("Your API key starting with " ++ key_prefix self ++ " is not valid");
     if truthy (raise_on_error self) then throw AuthenticationError else ret tt);
  when (truthy (raise_on_error self)) then lift (raise_for_status response);
  if ok response then lift (json response) else ret ∅.

(** A generator that has been run to its end: the items it yielded,
    in order, and how it ended ([None]: the loop was cut off by the
    fuel of the model before it ended). *)
Record gen (B : Type) : Type := mk_gen {
  yielded : list B;
  outcome : option (result unit)
}.
Arguments mk_gen {B} _ _.
Arguments yielded {B} _.
Arguments outcome {B} _.

(** The consumer's work on each yielded item, up to the first one on
    which it raises. *)
Fixpoint for_each {B} (k : pyval -> result B) (parts : list pyval)
  : list B * result unit :=
  match parts with
  | [] => ([], Ok tt)
  | part :: rest =>
      match k part with
      | Raise e => ([], Raise e)
      | Ok b => let '(bs, r) := for_each k rest in (b :: bs, r)
      end
  end.

(** The [while] loop of [_perform_pagination_request], entered with
    the response of the latest request. *)
Fixpoint pagination_loop {B} (fuel : nat) (self : t) (url method : string)
    (data : gmap string pyval) (s : session) (k : pyval -> result B)
    (response : gmap string pyval) (w : world) : gen B * world :=
  match fuel with
  | O => (mk_gen [] None, w)
  | S fuel' =>
      match response !! "data"%string with
      | None => (mk_gen [] (Some (Ok tt)), w)
      | Some v =>
          match py_len v with
          | Raise e => (mk_gen [] (Some (Raise e)), w)
          | Ok O => (mk_gen [] (Some (Ok tt)), w)
          | Ok (S _) =>
              match for_each k (py_iter v) with
              | (bs, Raise e) => (mk_gen bs (Some (Raise e)), w)
              | (bs, Ok _) =>
                  match response !! "next"%string with
                  | Some cursor =>
                      match _perform_request self url method
                              (Some (<["start"%string := cursor]> data)) (Some s) w with
                      | (Raise e, w') => (mk_gen bs (Some (Raise e)), w')
                      | (Ok response', w') =>
                          let '(g, w'') :=
                            pagination_loop fuel' self url method data s k response' w' in
                          (mk_gen (bs ++ yielded g) (outcome g), w'')
                      end
                  | None => (mk_gen bs (Some (Ok tt)), w)
                  end
              end
          end
      end
  end.

(** The generator run to its end by a consumer that applies [k] to
    every part.  Every turn of the loop but the last takes one pending
    response, which bounds the number of turns. *)
Definition _perform_pagination_request {B} (self : t) (url method : string)
    (data : gmap string pyval) (k : pyval -> result B) (w : world)
  : gen B * world :=
  let s := create_session self in
  match _perform_request self url method (Some data) (Some s) w with
  | (Raise e, w') => (mk_gen [] (Some (Raise e)), w')
  | (Ok response, w') =>
      pagination_loop (S (length (pending w'))) self url method data s k response w'
  end.

(** The exception that stands for a failure status when errors are to be
    raised. *)
Definition status_error (code : Z) : exn :=
  if code =? 429 then RateLimitError
  else if code =? 413 then PayloadTooLargeError
  else if code =? 403 then AuthenticationError
  else HTTPError.

(** *** The pagination protocol, in the words of the specification *)

(** The [data] list of a page; a page without one carries no items. *)
Definition page_data (page : gmap string pyval) : list pyval :=
  match page !! "data"%string with
  | Some (PList l) => l
  | _ => []
  end.

(** A page is followed by another when it has items and a [next] cursor. *)
Definition page_continues (page : gmap string pyval) : bool :=
  match page_data page, page !! "next"%string with
  | _ :: _, Some _ => true
  | _, _ => false
  end.

(** A response of the protocol: [data], when present, is a list. *)
Definition is_page (page : gmap string pyval) : bool :=
  match page !! "data"%string with
  | None | Some (PList _) => true
  | Some _ => false
  end.

(** The pages of a sequence of responses that the protocol reaches: each
    one up to and including the first that is not followed by another. *)
Fixpoint fetched (pages : list (gmap string pyval)) : list (gmap string pyval) :=
  match pages with
  | [] => []
  | page :: rest => page :: (if page_continues page then fetched rest else [])
  end.

(** The cursors of the fetched pages that are followed by another. *)
Fixpoint cursors (pages : list (gmap string pyval)) : list pyval :=
  match pages with
  | [] => []
  | page :: rest =>
      if page_continues page
      then default PNone (page !! "next"%string) :: cursors rest
      else []
  end.

(** The sequence ends within the given responses. *)
Definition ends (pages : list (gmap string pyval)) : bool :=
  existsb (fun page => negb (page_continues page)) pages.

(** The service's answer carrying a page. *)
Definition page_response (page : gmap string pyval) : http_response :=
  mk_response 200 (Some page).

(** The requests of a paginated call: the original body, then the body
    with [start] set to each cursor in turn. *)
Definition page_requests (self : t) (url method : string)
    (data : gmap string pyval) (cs : list pyval) : list http_request :=
  mk_request method url (Some data) (headers self)
  :: map (fun c => mk_request method url
                     (Some (<["start"%string := c]> data)) (headers self)) cs.

(** The two pages of the specification's example, for any three items. *)
Definition first_page (a b : pyval) : gmap string pyval :=
  {[ "data"%string := PList [a; b]; "next"%string := PStr "c1" ]}.
Definition last_page (c : pyval) : gmap string pyval :=
  {[ "data"%string := PList [c] ]}.

(** [OpenFIGIObject.from_figi_data(figi_object_data)]: only a mapping
    has a [get] method. *)
Definition object_of_part (part : pyval) : result OpenFIGIObject.t :=
  match part with
  | PDict d => Ok (OpenFIGIObject.from_figi_data d)
  | _ => Raise AttributeError
  end.

Definition search `{pf : Platform} (self : t) (query : string)
    (properties : option OpenFIGIProperties.t) (w : world)
  : gen OpenFIGIObject.t * world :=
  let properties := default OpenFIGIProperties.defaults properties in
  match OpenFIGIProperties.as_filter properties with
  | Raise e => (mk_gen [] (Some (Raise e)), w)
  | Ok flt =>
      _perform_pagination_request self
        (fmt (api_url self) ++ "/v2/search/") "POST"
        (<["query"%string := PStr query]> flt) object_of_part w
  end.

Definition mapping_values (self : t) (values : option MappingValues)
  : io pyval :=
  match values with
  | None => throw ValueError
  | Some v =>
      do d <- _perform_request self
                (fmt (api_url self) ++ "/v2/mapping/values/" ++ value v) "GET"
                None None;
      match d !! "values"%string with
      | Some x => ret x
      | None => throw (KeyError "values")
      end
  end.

End OpenFIGIApi.

End Core.

Import Core.

(** * Properties *)

(** ** The calendar *)

Section CalendarFacts.

(** Splits a conjunction of boolean tests into its tests. *)
Ltac split_tests H := repeat (apply andb_true_iff in H as [H ?]).

Lemma forallb_Z_range (f : Z -> bool) (k : nat) :
  forallb f (map Z.of_nat (seq 0 k)) = true ->
  forall n, 0 <= n < Z.of_nat k -> f n = true.
Proof.
  intros H n Hn. rewrite forallb_forall in H. apply H.
  apply in_map_iff. exists (Z.to_nat n). split; [lia|].
  apply in_seq. lia.
Qed.

(** Every day of a year gets a month and a day of that month, and the
    days before that month plus the day give the day of the year back. *)
Lemma month_day_spec leap n :
  0 <= n < 365 + b2z leap -> month_day_ok leap n = true.
Proof.
  intros Hn. destruct leap; cbn [b2z] in Hn.
  - apply (forallb_Z_range (month_day_ok true) 366); [vm_compute; reflexivity | lia].
  - apply (forallb_Z_range (month_day_ok false) 365); [vm_compute; reflexivity | lia].
Qed.

Lemma b2z_range b : 0 <= b2z b <= 1.
Proof. destruct b; cbn; lia. Qed.

Lemma leap_agree n400 n100 n4 n1 :
  0 <= n100 < 4 -> 0 <= n4 < 25 -> 0 <= n1 < 4 ->
  _is_leap (n400 * 400 + 1 + (n100 * 100 + n4 * 4 + n1))
  = (n1 =? 3) && (negb (n4 =? 24) || (n100 =? 3)).
Proof.
  intros H100 H4 H1. unfold _is_leap.
  destruct (Z.eqb_spec n1 3), (Z.eqb_spec n4 24), (Z.eqb_spec n100 3); cbn;
  repeat match goal with
  | |- context [?a mod ?b =? 0] => destruct (Z.eqb_spec (a mod b) 0)
  end; cbn; try reflexivity; exfalso; Z.div_mod_to_equations; lia.
Qed.

Lemma days_before_year_decomp n400 n100 n4 n1 :
  0 <= n100 < 4 -> 0 <= n4 < 25 -> 0 <= n1 < 4 ->
  _days_before_year (n400 * 400 + 1 + (n100 * 100 + n4 * 4 + n1))
  = 146097 * n400 + 36524 * n100 + 1461 * n4 + 365 * n1.
Proof.
  intros. unfold _days_before_year. Z.div_mod_to_equations. lia.
Qed.

Lemma days_before_month_flag y m : _days_before_month y m = dbm_flag (_is_leap y) m.
Proof. reflexivity. Qed.

Lemma days_in_month_flag y m : _days_in_month y m = dim_flag (_is_leap y) m.
Proof. reflexivity. Qed.

(** [_ord2ymd] inverts [_ymd2ord] and lands on a date of the calendar. *)
Lemma ord2ymd_spec n :
  1 <= n ->
  let d := _ord2ymd n in
  toordinal d = n /\ 1 <= year d /\ 1 <= month d <= 12
  /\ 1 <= day d <= _days_in_month (year d) (month d)
  /\ (n <= _MAXORDINAL -> year d <= MAXYEAR).
Proof.
  intros Hn. cbv zeta. unfold _ord2ymd, toordinal, _ymd2ord. cbv zeta.
  unfold _DI400Y, _DI100Y, _DI4Y, _MAXORDINAL, MAXYEAR.
  remember (n - 1) as n0 eqn:Hn0def.
  set (n400 := n0 / 146097). set (r1 := n0 mod 146097).
  set (n100 := r1 / 36524). set (r2 := r1 mod 36524).
  set (n4 := r2 / 1461). set (r3 := r2 mod 1461).
  set (n1 := r3 / 365). set (r4 := r3 mod 365).
  assert (E0 : n0 = 146097 * n400 + r1 /\ 0 <= r1 < 146097 /\ 0 <= n400)
    by (subst n400 r1; Z.div_mod_to_equations; lia).
  assert (E1 : r1 = 36524 * n100 + r2 /\ 0 <= r2 < 36524 /\ 0 <= n100 <= 4)
    by (subst n100 r2; Z.div_mod_to_equations; lia).
  assert (E2 : r2 = 1461 * n4 + r3 /\ 0 <= r3 < 1461 /\ 0 <= n4 < 25)
    by (subst n4 r3; Z.div_mod_to_equations; lia).
  assert (E3 : r3 = 365 * n1 + r4 /\ 0 <= r4 < 365 /\ 0 <= n1 <= 4)
    by (subst n1 r4; Z.div_mod_to_equations; lia).
  clearbody n400 r1 n100 r2 n4 r3 n1 r4.
  destruct ((n1 =? 4) || (n100 =? 4)) eqn:Hend.
  - (* the 366th day of a leap year, filed under the following year *)
    cbn [year month day].
    assert (Hy : exists q100 q4, 0 <= q100 < 4 /\ 0 <= q4 < 25
                /\ n400 * 400 + 1 + (n100 * 100 + n4 * 4 + n1) - 1
                   = n400 * 400 + 1 + (q100 * 100 + q4 * 4 + 3)
                /\ (q4 = 24 -> q100 = 3)
                /\ n0 = 146097 * n400 + 36524 * q100 + 1461 * q4 + 365 * 3 + 365).
    { apply orb_true_iff in Hend as [H|H]; apply Z.eqb_eq in H.
      - exists n100, n4. assert (n100 < 4 \/ n100 = 4) as [?|?] by lia; lia.
      - exists 3, 24. lia. }
    destruct Hy as (q100 & q4 & Hq100 & Hq4 & -> & Hq & Hn0).
    rewrite days_before_month_flag, days_in_month_flag.
    rewrite leap_agree, days_before_year_decomp by lia.
    replace (3 =? 3) with true by reflexivity.
    assert (Hl : negb (q4 =? 24) || (q100 =? 3) = true).
    { destruct (Z.eqb_spec q4 24); cbn; [|reflexivity]. apply Z.eqb_eq; auto. }
    rewrite Hl. cbn [andb].
    change (dbm_flag true 12) with 335. change (dim_flag true 12) with 31. lia.
  - apply orb_false_iff in Hend as [H1 H100].
    apply Z.eqb_neq in H1, H100.
    remember ((n1 =? 3) && (negb (n4 =? 24) || (n100 =? 3))) as leap eqn:Hleap.
    assert (Hr4 : 0 <= r4 < 365 + b2z leap).
    { pose proof (b2z_range leap). lia. }
    pose proof (month_day_spec leap r4 Hr4) as Hmd.
    unfold month_day_ok in Hmd.
    destruct (month_day leap r4) as [m d]. cbn [year month day].
    rewrite days_before_month_flag, days_in_month_flag.
    rewrite leap_agree, days_before_year_decomp by lia. rewrite <- Hleap.
    split_tests Hmd.
    lia.
Qed.

Lemma toordinal_fromordinal n : 1 <= n -> toordinal (fromordinal n) = n.
Proof. intros Hn. apply (ord2ymd_spec n Hn). Qed.

Lemma valid_fromordinal n :
  1 <= n <= _MAXORDINAL -> valid (fromordinal n) = true.
Proof.
  intros [Hn Hmax]. destruct (ord2ymd_spec n Hn) as (_ & Hy & Hm & Hd & Hy').
  specialize (Hy' Hmax). unfold valid, fromordinal, MINYEAR.
  repeat (apply andb_true_iff; split); apply Z.leb_le; lia.
Qed.

Lemma digit_val_digit z : digit_val (digit z) = Some (z mod 10).
Proof.
  unfold digit_val, digit.
  assert (Hz : 0 <= z mod 10 < 10) by (apply Z.mod_pos_bound; lia).
  rewrite nat_ascii_embedding by lia.
  replace (Z.of_nat (48 + Z.to_nat (z mod 10))) with (48 + z mod 10) by lia.
  destruct (Z.leb_spec 48 (48 + z mod 10)); [|lia].
  destruct (Z.leb_spec (48 + z mod 10) 57); [|lia].
  cbn. f_equal. lia.
Qed.

Lemma days_in_month_le_31 y m : _days_in_month y m <= 31.
Proof.
  unfold _days_in_month. destruct ((m =? 2) && _is_leap y); [lia|].
  unfold tbl. destruct (Z.to_nat m) as [|k]; [cbn; lia|].
  do 13 (destruct k as [|k]; [cbn; lia|]). cbn. destruct k; lia.
Qed.

(** From the year 1000 on, and on a platform that pads the year at any
    year, the rendering is a [YYYY-MM-DD] string that reads back as the
    date. *)
Lemma parse_strftime `{pf : Platform} d :
  valid d = true -> (1000 <=? year d) || pads_year = true ->
  parse_Ymd (strftime_Ymd d) = Some d.
Proof.
  unfold valid, MINYEAR, MAXYEAR. destruct d as [y m dd]. cbn [year month day].
  intros Hv Hy. split_tests Hv.
  pose proof (days_in_month_le_31 y m).
  unfold parse_Ymd, strftime_Ymd, fmt_Y, fmt_2. cbn [year month day].
  rewrite Hy.
  cbv [String.append list_ascii_of_string Ascii.eqb Bool.eqb andb number].
  rewrite !digit_val_digit. f_equal. f_equal.
  - Z.div_mod_to_equations. lia.
  - Z.div_mod_to_equations. lia.
  - Z.div_mod_to_equations. lia.
Qed.

Lemma days_before_next_year y :
  _days_before_year (y + 1) = _days_before_year y + 365 + b2z (_is_leap y).
Proof.
  unfold _days_before_year, _is_leap. cbv zeta.
  replace (y + 1 - 1) with y by lia.
  repeat match goal with
  | |- context [?a mod ?b =? 0] => destruct (Z.eqb_spec (a mod b) 0)
  end; cbn [negb andb orb b2z]; Z.div_mod_to_equations; lia.
Qed.

Lemma day_of_year_bounds leap m dd :
  1 <= m <= 12 -> 1 <= dd <= dim_flag leap m ->
  1 <= dbm_flag leap m + dd <= 365 + b2z leap.
Proof.
  intros Hm Hd.
  pose (chk := fun l k => (k =? 0) || ((0 <=? dbm_flag l k)
                 && (dbm_flag l k + dim_flag l k <=? 365 + b2z l))).
  assert (Hchk : chk leap m = true).
  { destruct leap.
    - apply (forallb_Z_range (chk true) 13); [vm_compute; reflexivity | lia].
    - apply (forallb_Z_range (chk false) 13); [vm_compute; reflexivity | lia]. }
  unfold chk in Hchk. apply orb_true_iff in Hchk as [H0 | H1].
  - apply Z.eqb_eq in H0. lia.
  - apply andb_true_iff in H1 as [H1 H2].
    apply Z.leb_le in H1, H2. lia.
Qed.

(** The ordinal of a date of the calendar lies between 1 and
    [_MAXORDINAL]. *)
Lemma toordinal_bounds d : valid d = true -> 1 <= toordinal d <= _MAXORDINAL.
Proof.
  unfold valid, MINYEAR, MAXYEAR. destruct d as [y m dd]. cbn [year month day].
  intros H. split_tests H.
  unfold toordinal, _ymd2ord, _MAXORDINAL. cbn [year month day].
  rewrite days_in_month_flag in *. rewrite days_before_month_flag.
  pose proof (day_of_year_bounds (_is_leap y) m dd ltac:(lia) ltac:(lia)) as Hdoy.
  pose proof (days_before_next_year y) as Hnext.
  assert (0 <= _days_before_year y)
    by (unfold _days_before_year; Z.div_mod_to_equations; lia).
  assert (_days_before_year (y + 1) <= 3652059)
    by (unfold _days_before_year; Z.div_mod_to_equations; lia).
  lia.
Qed.

(** A date from 1000-01-01 on has a year from 1000 on. *)
Lemma year_of_ordinal d :
  valid d = true -> toordinal (mkdate 1000 1 1) <= toordinal d -> 1000 <= year d.
Proof.
  intros Hv Hord. destruct (Z.le_gt_cases 1000 (year d)) as [|Hlt]; [assumption|].
  exfalso. revert Hord. change (toordinal (mkdate 1000 1 1)) with 364878.
  unfold valid, MINYEAR, MAXYEAR in Hv. destruct d as [y m dd].
  cbn [year month day] in *. split_tests Hv.
  unfold toordinal, _ymd2ord. cbn [year month day].
  rewrite days_in_month_flag in *. rewrite days_before_month_flag.
  pose proof (day_of_year_bounds (_is_leap y) m dd ltac:(lia) ltac:(lia)) as Hdoy.
  pose proof (days_before_next_year y) as Hnext.
  assert (_days_before_year (y + 1) <= 364877)
    by (unfold _days_before_year; Z.div_mod_to_equations; lia).
  lia.
Qed.

(** And a date of the year 1000 or later is not before 1000-01-01. *)
Lemma ordinal_of_year d :
  valid d = true -> 1000 <= year d -> toordinal (mkdate 1000 1 1) <= toordinal d.
Proof.
  intros Hv Hy. change (toordinal (mkdate 1000 1 1)) with 364878.
  unfold valid, MINYEAR, MAXYEAR in Hv. destruct d as [y m dd].
  cbn [year month day] in *. split_tests Hv.
  unfold toordinal, _ymd2ord. cbn [year month day].
  rewrite days_in_month_flag in *. rewrite days_before_month_flag.
  pose proof (day_of_year_bounds (_is_leap y) m dd ltac:(lia) ltac:(lia)).
  assert (364877 <= _days_before_year y)
    by (unfold _days_before_year; Z.div_mod_to_equations; lia).
  lia.
Qed.

End CalendarFacts.

(** ** The range normaliser *)

Section RangeNormaliser.

Example date_range_start_only `{pf : Platform} :
  convert_date_range_to_string (Some (Some (mkdate 2020 11 12), None))
  = Ok (Some ["2020-11-12"; "2021-11-11"]%string).
Proof. reflexivity. Qed.

Example date_range_end_only `{pf : Platform} :
  convert_date_range_to_string (Some (None, Some (mkdate 2020 11 12)))
  = Ok (Some ["2019-11-14"; "2020-11-12"]%string).
Proof. reflexivity. Qed.

Example date_range_both `{pf : Platform} :
  convert_date_range_to_string
    (Some (Some (mkdate 2020 11 12), Some (mkdate 2020 11 12)))
  = Ok (Some ["2020-11-12"; "2020-11-12"]%string).
Proof. reflexivity. Qed.

Example date_range_none `{pf : Platform} : convert_date_range_to_string None = Ok None.
Proof. reflexivity. Qed.

(** A range without any bound cannot be converted: [None - timedelta]. *)
Example date_range_no_bound `{pf : Platform} :
  convert_date_range_to_string (Some (None, None)) = Raise TypeError.
Proof. reflexivity. Qed.

(** The synthesised bound of a range: the date [k] days after [d], when
    the calendar has it. *)
Lemma add_days_in_range d k :
  valid d = true -> 1 <= toordinal d + k <= _MAXORDINAL ->
  exists d', add_days d k = Ok d' /\ valid d' = true
             /\ toordinal d' = toordinal d + k.
Proof.
  intros Hd [Hlo Hhi]. exists (fromordinal (toordinal d + k)).
  unfold add_days. cbv zeta.
  destruct (Z.ltb_spec 0 (toordinal d + k)); [|lia].
  destruct (Z.leb_spec (toordinal d + k) _MAXORDINAL); [|lia].
  cbn [andb]. split; [reflexivity|].
  split; [apply valid_fromordinal | apply toordinal_fromordinal]; lia.
Qed.

Lemma add_days_out_of_range d k :
  toordinal d + k < 1 \/ _MAXORDINAL < toordinal d + k ->
  add_days d k = Raise OverflowError.
Proof.
  intros H. unfold add_days. cbv zeta.
  destruct (Z.ltb_spec 0 (toordinal d + k)); cbn [andb]; [|reflexivity].
  destruct (Z.leb_spec (toordinal d + k) _MAXORDINAL); [lia | reflexivity].
Qed.

(** The conversion of a range with both bounds, and of a range with one
    bound whose other bound is on the calendar: the strings are the
    renderings of the two dates. *)
Lemma convert_both `{pf : Platform} lo hi :
  convert_date_range_to_string (Some (Some lo, Some hi))
  = Ok (Some [strftime_Ymd lo; strftime_Ymd hi]).
Proof. reflexivity. Qed.

Lemma convert_lower_only `{pf : Platform} lo hi :
  add_days lo 364 = Ok hi ->
  convert_date_range_to_string (Some (Some lo, None))
  = Ok (Some [strftime_Ymd lo; strftime_Ymd hi]).
Proof.
  intros Hadd. unfold convert_date_range_to_string, py_or_lazy, opt_date_add.
  change (weeks 52) with 364. cbn [truthy truthy_option truthy_date bind].
  rewrite Hadd. reflexivity.
Qed.

Lemma convert_upper_only `{pf : Platform} lo hi :
  add_days hi (-364) = Ok lo ->
  convert_date_range_to_string (Some (None, Some hi))
  = Ok (Some [strftime_Ymd lo; strftime_Ymd hi]).
Proof.
  intros Hadd.
  unfold convert_date_range_to_string, py_or_lazy, opt_date_sub, sub_days.
  change (weeks 52) with 364. cbn [truthy truthy_option truthy_date bind].
  change (- (364)) with (-364). rewrite Hadd. reflexivity.
Qed.

(** C2, as the claim states it, fails in two places.  A range whose only
    bound is the last day of the calendar has no upper bound 364 days
    later: the conversion raises, on any platform.  And where the C library
    does not pad the year, a bound before the year 1000 is not rendered as
    a YYYY-MM-DD string: the range (0999-01-02, None) gives "999-01-02"
    and "1000-01-01". *)
Lemma convert_date_range_to_string_fails :
  valid (mkdate 9999 12 31) = true
  /\ @convert_date_range_to_string zero_padding
       (Some (Some (mkdate 9999 12 31), None)) = Raise OverflowError
  /\ @convert_date_range_to_string glibc
       (Some (Some (mkdate 9999 12 31), None)) = Raise OverflowError
  /\ valid (mkdate 999 1 2) = true
  /\ @convert_date_range_to_string glibc (Some (Some (mkdate 999 1 2), None))
     = Ok (Some ["999-01-02"; "1000-01-01"]%string)
  /\ parse_Ymd "999-01-02" = None.
Proof. repeat split; reflexivity. Qed.

(** C2 (amended): for every date range with exactly one bound present
    whose two bounds, the present one and the one 364 days away from it,
    lie between 1000-01-01 and 9999-12-31, the conversion synthesises the
    missing bound at exactly 364 days from the present one (a missing upper
    bound becomes lower + 364 days, a missing lower bound becomes upper -
    364 days) and renders both bounds as YYYY-MM-DD strings; a range with
    both dates present, from the year 1000 on, is rendered unchanged. *)
Theorem convert_date_range_to_string_spec `{pf : Platform} (d : date) :
  valid d = true -> 1000 <= year d ->
  (forall d', valid d' = true -> 1000 <= year d' ->
     renders (convert_date_range_to_string (Some (Some d, Some d'))) d d')
  /\ (toordinal d + 364 <= _MAXORDINAL ->
      exists hi, valid hi = true /\ toordinal hi = toordinal d + 364
        /\ renders (convert_date_range_to_string (Some (Some d, None))) d hi)
  /\ (toordinal (mkdate 1000 1 1) <= toordinal d - 364 ->
      exists lo, valid lo = true /\ toordinal lo = toordinal d - 364
        /\ renders (convert_date_range_to_string (Some (None, Some d))) lo d).
Proof.
  intros Hd Hy. pose proof (toordinal_bounds d Hd) as Hpos.
  assert (Hshape : forall x, valid x = true -> 1000 <= year x ->
                     parse_Ymd (strftime_Ymd x) = Some x).
  { intros x Hx Hyx. apply parse_strftime; [exact Hx|].
    apply orb_true_iff. left. apply Z.leb_le, Hyx. }
  split; [|split].
  - intros d' Hd' Hy'. exists (strftime_Ymd d), (strftime_Ymd d').
    split; [apply convert_both|]. split; apply Hshape; assumption.
  - intros Hmax.
    destruct (add_days_in_range d 364 Hd) as (hi & Hadd & Hhi & Hord); [lia|].
    exists hi. split; [assumption|]. split; [assumption|].
    exists (strftime_Ymd d), (strftime_Ymd hi).
    split; [apply convert_lower_only, Hadd|].
    split; apply Hshape; try assumption.
    apply year_of_ordinal; [assumption|].
    pose proof (ordinal_of_year d Hd Hy). lia.
  - intros Hmin.
    assert (Hfirst : toordinal (mkdate 1000 1 1) = 364878) by reflexivity.
    destruct (add_days_in_range d (-364) Hd) as (lo & Hadd & Hlo & Hord); [lia|].
    exists lo. split; [assumption|]. split; [lia|].
    exists (strftime_Ymd lo), (strftime_Ymd d).
    split; [apply convert_upper_only, Hadd|].
    split; apply Hshape; try assumption.
    apply year_of_ordinal; [assumption | lia].
Qed.

Lemma convert_date_range_to_string_spec_witness :
  valid (mkdate 2020 11 12) = true
  /\ (exists hi, valid hi = true
        /\ toordinal hi = toordinal (mkdate 2020 11 12) + 364
        /\ renders (@convert_date_range_to_string glibc
                      (Some (Some (mkdate 2020 11 12), None)))
                   (mkdate 2020 11 12) hi)
  /\ (exists lo, valid lo = true
        /\ toordinal lo = toordinal (mkdate 2020 11 12) - 364
        /\ renders (@convert_date_range_to_string glibc
                      (Some (None, Some (mkdate 2020 11 12))))
                   lo (mkdate 2020 11 12)).
Proof.
  split; [reflexivity|].
  destruct (@convert_date_range_to_string_spec glibc (mkdate 2020 11 12) eq_refl)
    as (_ & Hup & Hlow); [vm_compute; congruence|].
  split; [apply Hup | apply Hlow]; vm_compute; congruence.
Defined.

(** A numeric bound is falsy when it is absent and when it is zero. *)
Lemma truthy_bound (o : option Z) :
  truthy o = match o with Some z => negb (z =? 0) | None => false end.
Proof. destruct o; reflexivity. Qed.

Lemma truthy_bound_nonzero (o : option Z) :
  o <> Some 0 -> truthy o = bool_decide (is_Some o).
Proof.
  intros Hz. rewrite truthy_bound. destruct o as [z|]; [|reflexivity].
  destruct (Z.eqb_spec z 0); [congruence | reflexivity].
Qed.

(** What the validity check decides, in terms of the truthiness of the two
    bounds. *)
Lemma assert_data_range_is_valid_decides {A} `{Truthy A} `{PyGe A}
    (lo hi : option A) :
  succeeds (assert_data_range_is_valid (lo, hi))
  = (truthy lo || truthy hi)
    && (negb (truthy lo && truthy hi)
        || match lo, hi with Some a, Some b => py_ge b a | _, _ => false end).
Proof.
  unfold assert_data_range_is_valid, py_any, py_all.
  cbn [fst snd length Nat.eqb py_assert bind existsb forallb].
  rewrite orb_false_r, andb_true_r.
  destruct lo as [a|], hi as [b|]; cbn [truthy truthy_option];
    try (destruct (truthy a)); try (destruct (truthy b));
    cbn [orb andb negb py_assert bind opt_ge succeeds]; try reflexivity;
    destruct (py_ge b a); reflexivity.
Qed.

(** On date ranges, where every present bound is truthy, the check fails
    exactly when both bounds are absent or the upper one precedes the
    lower one. *)
Lemma assert_data_range_is_valid_dates (lo hi : option date) :
  assert_data_range_is_valid (lo, hi)
  = match lo, hi with
    | None, None => Raise AssertionError
    | Some a, Some b =>
        match _cmp b a with Lt => Raise AssertionError | _ => Ok tt end
    | _, _ => Ok tt
    end.
Proof.
  destruct lo as [a|], hi as [b|]; try reflexivity.
  unfold assert_data_range_is_valid, py_any, py_all. cbn.
  unfold py_ge, py_ge_date. destruct (_cmp b a); reflexivity.
Qed.

(** On ranges of integers without a zero bound the check likewise fails
    exactly when both bounds are absent or the upper one is below the lower
    one. *)
Lemma assert_data_range_is_valid_nonzero (lo hi : option Z) :
  lo <> Some 0 -> hi <> Some 0 ->
  assert_data_range_is_valid (lo, hi)
  = match lo, hi with
    | None, None => Raise AssertionError
    | Some a, Some b => if b <? a then Raise AssertionError else Ok tt
    | _, _ => Ok tt
    end.
Proof.
  intros Hlo Hhi.
  unfold assert_data_range_is_valid, py_any, py_all.
  cbn [fst snd length Nat.eqb py_assert bind existsb forallb].
  rewrite (truthy_bound_nonzero lo Hlo), (truthy_bound_nonzero hi Hhi).
  destruct lo as [a|], hi as [b|]; cbn; try reflexivity.
  unfold py_ge, py_ge_Z.
  destruct (Z.leb_spec a b), (Z.ltb_spec b a); try lia; reflexivity.
Qed.

(** C3: the code departs from the claim on a bound that is the number 0.
    The pair (0, None) has a present bound, yet the check fails on it; the
    pair (5, 0) has both bounds present with upper < lower, yet the check
    succeeds on it. *)
Theorem assert_data_range_is_valid_zero_bound :
  assert_data_range_is_valid (Some 0, @None Z) = Raise AssertionError
  /\ assert_data_range_is_valid (Some 5, Some 0) = Ok tt.
Proof. split; reflexivity. Qed.

(** Without a zero bound the numeric conversion returns the pair as it is,
    an absent bound staying [None]. *)
Lemma convert_number_range_to_string_nonzero (lo hi : option Z) :
  lo <> Some 0 -> hi <> Some 0 ->
  convert_number_range_to_string (Some (lo, hi)) = Some [lo; hi].
Proof.
  intros Hlo Hhi.
  unfold convert_number_range_to_string, py_or.
  rewrite (truthy_bound_nonzero lo Hlo), (truthy_bound_nonzero hi Hhi).
  destruct lo, hi; reflexivity.
Qed.

Example number_range_100_None :
  convert_number_range_to_string (Some (Some 100, None)) = Some [Some 100; None].
Proof. reflexivity. Qed.

(** C4: the code departs from the claim on a bound that is the number 0.
    A present bound 0 is rendered as null, whatever the other bound: the
    range (0, 5) is rendered as [[None; 5]] and the range (0, 0) as
    [[None; None]]. *)
Theorem convert_number_range_to_string_zero_bound :
  (forall hi, exists hi',
      convert_number_range_to_string (Some (Some 0, hi)) = Some [None; hi'])
  /\ (forall lo, exists lo',
        convert_number_range_to_string (Some (lo, Some 0)) = Some [lo'; None])
  /\ convert_number_range_to_string (Some (Some 0, Some 5)) = Some [None; Some 5]
  /\ convert_number_range_to_string (Some (Some 0, Some 0)) = Some [None; None].
Proof.
  split; [|split; [|split; reflexivity]].
  - intros hi. exists (py_or hi None). reflexivity.
  - intros lo. exists (py_or lo None). reflexivity.
Qed.

End RangeNormaliser.

(** ** Result objects *)

Section ResultObjects.

Import OpenFIGIObject.

Lemma dict_get_insert_ne (d : gmap string pyval) k k' v :
  k <> k' -> dict_get (<[k := v]> d) k' = dict_get d k'.
Proof. intros Hne. unfold dict_get. rewrite lookup_insert_ne by assumption. reflexivity. Qed.

(** C10: the result object is the fixed field-name table applied to the
    item.  Each mapped field holds the value the item has under its wire
    key, and [None] when the item has no such key: [figi] reads the key
    "figipy" (hence is [None] whenever the item has no such key, as when
    the identifier comes under "figi" or "FIGI"), the ten other mapped
    fields read their wire keys.  [ticker] and [metadata] are [None] for
    every item, and a key outside the table has no influence on the
    result. *)
Theorem from_figi_data_table (d : gmap string pyval) :
  reads d "figipy" (figi (from_figi_data d))
  /\ reads d "securityType" (security_type (from_figi_data d))
  /\ reads d "securityType2" (security_type_2 (from_figi_data d))
  /\ reads d "marketSecDes" (market_sector (from_figi_data d))
  /\ reads d "exchCode" (exchange_code (from_figi_data d))
  /\ reads d "name" (name (from_figi_data d))
  /\ reads d "id" (id (from_figi_data d))
  /\ reads d "shareClassFIGI" (share_class_figi (from_figi_data d))
  /\ reads d "compositeFIGI" (composite_figi (from_figi_data d))
  /\ reads d "securityDescription" (security_description (from_figi_data d))
  /\ reads d "uniqueIDFutOpt" (future_or_option_id (from_figi_data d))
  /\ ticker (from_figi_data d) = PNone
  /\ metadata (from_figi_data d) = PNone
  /\ (forall k v, k ∉ wire_keys ->
        from_figi_data (<[k := v]> d) = from_figi_data d)
  /\ figi (from_figi_data {[ "figi"%string := PStr "BBG000BLNNH6" ]}) = PNone
  /\ figi (from_figi_data {[ "FIGI"%string := PStr "BBG000BLNNH6" ]}) = PNone
  /\ from_figi_data {[ "figipy"%string := PStr "BBG000BLNNH6";
                       "name"%string := PStr "INTL BUSINESS MACHINES CORP";
                       "ticker"%string := PStr "IBM" ]}
     = mk (PStr "BBG000BLNNH6") PNone PNone PNone PNone PNone
          (PStr "INTL BUSINESS MACHINES CORP") PNone PNone PNone PNone PNone PNone.
Proof.
  repeat (split;
    [match goal with |- reads _ _ _ => idtac end;
     unfold reads, from_figi_data, dict_get;
     cbn [figi security_type security_type_2 market_sector exchange_code name id
          share_class_figi composite_figi security_description
          future_or_option_id];
     match goal with |- context [d !! ?k] => destruct (d !! k) end;
     reflexivity|]).
  do 2 (split; [reflexivity|]).
  split; [|repeat split; vm_compute; reflexivity].
  intros k v Hk. unfold wire_keys in Hk.
  repeat (apply not_elem_of_cons in Hk as [? Hk]).
  unfold from_figi_data. rewrite !dict_get_insert_ne by assumption. reflexivity.
Qed.

End ResultObjects.

(** ** The filter builder *)

Section FilterBuilder.

Import OpenFIGIProperties.










Lemma as_filter_unfold `{pf : Platform} p :
  as_filter p
  = match convert_date_range_to_string (expiration p) with
    | Raise err => Raise err
    | Ok e =>
        match convert_date_range_to_string (maturity p) with
        | Raise err => Raise err
        | Ok mt => Ok (filter (fun kv => is_none kv.2 = false)
                         (list_to_map (items p e mt)))
        end
    end.
Proof. reflexivity. Qed.


(** The range check on a date range ends in success or in an
    [AssertionError], never in another exception. *)
Lemma assert_date_range_outcome (r : DateRange) :
  assert_data_range_is_valid r = Ok tt
  \/ assert_data_range_is_valid r = Raise AssertionError.
Proof.
  destruct r as [lo hi]. rewrite assert_data_range_is_valid_dates.
  destruct lo, hi; auto. destruct (_cmp _ _); auto.
Qed.

Lemma post_init_blocks p :
  __post_init__ p
  = let* _ := block (security_type_2 p) ["Option"; "Warrant"]%string (expiration p) in
    block (security_type_2 p) ["Pool"]%string (maturity p).
Proof. reflexivity. Qed.

Lemma block_outcome subtype allowed r :
  block subtype allowed r = Ok tt \/ block subtype allowed r = Raise AssertionError.
Proof.
  unfold block. destruct r as [r|]; cbn [truthy truthy_option truthy_pair]; auto.
  destruct (py_in subtype allowed); cbn [py_assert bind]; auto.
  apply assert_date_range_outcome.
Qed.

Lemma block_wrong_subtype subtype allowed r :
  r <> None -> py_in subtype allowed = false ->
  block subtype allowed r = Raise AssertionError.
Proof.
  intros Hr Hin. unfold block. destruct r as [r|]; [|congruence].
  cbn [truthy truthy_option truthy_pair]. rewrite Hin. reflexivity.
Qed.

Lemma block_invalid_range subtype allowed (r : DateRange) :
  assert_data_range_is_valid r = Raise AssertionError ->
  block subtype allowed (Some r) = Raise AssertionError.
Proof.
  intros Hr. unfold block. cbn [truthy truthy_option truthy_pair].
  destruct (py_in subtype allowed); cbn [py_assert bind]; [exact Hr | reflexivity].
Qed.

Lemma post_init_fails_left p :
  block (security_type_2 p) ["Option"; "Warrant"]%string (expiration p)
  = Raise AssertionError ->
  __post_init__ p = Raise AssertionError.
Proof. intros H. rewrite post_init_blocks, H. reflexivity. Qed.

Lemma post_init_fails_right p :
  block (security_type_2 p) ["Pool"]%string (maturity p) = Raise AssertionError ->
  __post_init__ p = Raise AssertionError.
Proof.
  intros H. rewrite post_init_blocks, H.
  destruct (block_outcome (security_type_2 p) ["Option"; "Warrant"]%string
              (expiration p)) as [-> | ->]; reflexivity.
Qed.

Lemma new_fails p :
  __post_init__ p = Raise AssertionError -> new p = Raise AssertionError.
Proof. intros H. unfold new. rewrite H. reflexivity. Qed.

(** No object, no wire mapping. *)
Lemma no_object_no_mapping `{pf : Platform} p e :
  new p = Raise e -> (let* q := new p in as_filter q) = Raise e.
Proof. intros H. rewrite H. reflexivity. Qed.

(** C7: a filter with [expiration] set whose subtype is neither "Option"
    nor "Warrant", and a filter with [maturity] set whose subtype is not
    "Pool", fail at construction with an [AssertionError]; no object comes
    into being, hence no wire mapping and no request. *)
Theorem post_init_subtype_checks `{pf : Platform} (p : OpenFIGIProperties.t) :
  (expiration p <> None /\ security_type_2 p <> Some "Option"%string
     /\ security_type_2 p <> Some "Warrant"%string)
  \/ (maturity p <> None /\ security_type_2 p <> Some "Pool"%string) ->
  new p = Raise AssertionError
  /\ (let* q := new p in as_filter q) = Raise AssertionError.
Proof.
  intros H.
  assert (Hnew : new p = Raise AssertionError);
    [|split; [exact Hnew | apply no_object_no_mapping, Hnew]].
  apply new_fails. destruct H as [(He & Ho & Hw) | (Hm & Hp)].
  - apply post_init_fails_left, block_wrong_subtype; [exact He|].
    unfold py_in. cbn [existsb]. rewrite !bool_decide_eq_false_2 by assumption.
    reflexivity.
  - apply post_init_fails_right, block_wrong_subtype; [exact Hm|].
    unfold py_in. cbn [existsb]. rewrite bool_decide_eq_false_2 by assumption.
    reflexivity.
Qed.

Lemma post_init_subtype_checks_witness :
  new (mk None None None None None (Some "Pool"%string) None None None None None
         (Some (Some (mkdate 2020 12 11), None)) None None)
  = Raise AssertionError
  /\ (let* q := new (mk None None None None None (Some "Pool"%string) None None
                       None None None
                       (Some (Some (mkdate 2020 12 11), None)) None None) in
      @as_filter glibc q) = Raise AssertionError.
Proof.
  apply (@post_init_subtype_checks glibc). left. cbn. repeat split; congruence.
Defined.

(** The date ranges are checked at construction: a filter whose
    [expiration] or [maturity] has no bound, or has its upper bound before
    its lower one, is never constructed. *)
Lemma post_init_date_range_checks (p : OpenFIGIProperties.t) (r : DateRange) :
  expiration p = Some r \/ maturity p = Some r ->
  r = (None, None)
  \/ (exists lo hi, r = (Some lo, Some hi) /\ _cmp hi lo = Lt) ->
  new p = Raise AssertionError.
Proof.
  intros Hp Hr. apply new_fails.
  assert (Hbad : assert_data_range_is_valid r = Raise AssertionError).
  { destruct Hr as [-> | (lo & hi & -> & Hlt)]; [reflexivity|].
    rewrite assert_data_range_is_valid_dates, Hlt. reflexivity. }
  destruct Hp as [He | Hm].
  - apply post_init_fails_left. rewrite He. apply block_invalid_range, Hbad.
  - apply post_init_fails_right. rewrite Hm. apply block_invalid_range, Hbad.
Qed.

(** C5: the numeric ranges do not go through the validity check.  A filter
    whose [strike] has no bound at all is constructed and gives a wire
    mapping with the entry [[None; None]], and so is one whose [strike]
    has its upper bound below its lower bound. *)
Theorem numeric_ranges_not_validated `{pf : Platform} :
  new (mk None None None None None None None None
         (Some (None, None)) None None None None None)
  = Ok (mk None None None None None None None None
          (Some (None, None)) None None None None None)
  /\ as_filter (mk None None None None None None None None
                  (Some (None, None)) None None None None None)
     = Ok {[ "strike"%string := PList [PNone; PNone] ]}
  /\ (let* q := new (mk None None None None None None None None
                       (Some (Some 5, Some 3)) None None None None None) in
      as_filter q)
     = Ok {[ "strike"%string := PList [PInt 5; PInt 3] ]}.
Proof. repeat split; vm_compute; reflexivity. Qed.

End FilterBuilder.

(** ** The client *)

Section Client.

Import OpenFIGIApi.

Lemma for_each_Ok (l : list pyval) : for_each Ok l = (l, Ok tt).
Proof. induction l as [|x l IH]; cbn; [|rewrite IH]; reflexivity. Qed.

(** A consumer that gets through a concatenation gets through its parts. *)
Lemma for_each_app {B} (k : pyval -> result B) l1 l2 bs :
  for_each k (l1 ++ l2) = (bs, Ok tt) ->
  exists b1 b2, for_each k l1 = (b1, Ok tt) /\ for_each k l2 = (b2, Ok tt)
                /\ bs = b1 ++ b2.
Proof.
  revert bs. induction l1 as [|x l1 IH]; intros bs H.
  - exists [], bs. auto.
  - cbn in H |- *. destruct (k x) as [b|e]; [|discriminate H].
    destruct (for_each k (l1 ++ l2)) as [bs' r] eqn:E.
    injection H as <- ->. destruct (IH bs' eq_refl) as (b1 & b2 & -> & H2 & ->).
    exists (b :: b1), b2. auto.
Qed.

(** A request answered by a page: the page comes back, whatever the
    raise-on-error flag, and the request is on record. *)
Lemma perform_request_page self url method data s page rest w :
  pending w = page_response page :: rest ->
  _perform_request self url method data s w
  = (Ok page, mk_world rest (sent w ++ [mk_request method url data (headers self)])
                (logged w)).
Proof.
  intros H. unfold _perform_request, bind_io, request. rewrite H.
  cbn [tl page_response status_code Z.eqb Pos.eqb ret].
  unfold lift, raise_for_status, ok, is_error_status, json. cbn.
  destruct (truthy (raise_on_error self)); reflexivity.
Qed.

Lemma world_unchanged w :
  mk_world (drop 0 (pending w)) (sent w ++ []) (logged w) = w.
Proof. destruct w. cbn. rewrite app_nil_r. reflexivity. Qed.

(** One turn of the loop on a page of the protocol. *)
Lemma pagination_loop_step {B} fuel self url method data s (k : pyval -> result B)
    page w :
  is_page page = true ->
  pagination_loop (S fuel) self url method data s k page w
  = match page_data page with
    | [] => (mk_gen [] (Some (Ok tt)), w)
    | items =>
        match for_each k items with
        | (bs, Raise e) => (mk_gen bs (Some (Raise e)), w)
        | (bs, Ok _) =>
            match page !! "next"%string with
            | Some cursor =>
                match _perform_request self url method
                        (Some (<["start"%string := cursor]> data)) (Some s) w with
                | (Raise e, w') => (mk_gen bs (Some (Raise e)), w')
                | (Ok response', w') =>
                    let '(g, w'') :=
                      pagination_loop fuel self url method data s k response' w' in
                    (mk_gen (bs ++ yielded g) (outcome g), w'')
                end
            | None => (mk_gen bs (Some (Ok tt)), w)
            end
        end
    end.
Proof.
  unfold is_page, page_data. cbn [pagination_loop].
  destruct (page !! "data"%string) as [[| | | |l|]|]; try discriminate; intros _;
    try reflexivity.
  destruct l; reflexivity.
Qed.

(** The loop, entered with a page and with the pages that follow it still
    to come, yields the items of the fetched pages to a consumer that gets
    through all of them, and asks for one more page per cursor. *)
Lemma pagination_loop_pages {B} self url method data s (k : pyval -> result B) :
  forall pages page fuel w bs,
    forallb is_page (page :: pages) = true ->
    ends (page :: pages) = true ->
    pending w = map page_response pages ->
    (length pages < fuel)%nat ->
    for_each k (concat (map page_data (fetched (page :: pages)))) = (bs, Ok tt) ->
    pagination_loop fuel self url method data s k page w
    = (mk_gen bs (Some (Ok tt)),
       mk_world (drop (length (cursors (page :: pages))) (pending w))
         (sent w ++ map (fun c => mk_request method url
                                    (Some (<["start"%string := c]> data))
                                    (headers self))
                        (cursors (page :: pages)))
         (logged w)).
Proof.
  induction pages as [|page' pages IH];
    intros page fuel w bs Hpg Hends Hpend Hfuel Hk;
    (destruct fuel as [|fuel]; [lia|]);
    cbn [forallb] in Hpg; apply andb_true_iff in Hpg as [Hpage Hpg];
    rewrite (pagination_loop_step _ _ _ _ _ _ _ _ _ Hpage);
    cbn [fetched cursors map concat] in Hk |- *; unfold page_continues in Hk |- *;
    unfold ends in Hends; cbn [existsb] in Hends; unfold page_continues in Hends.
  - destruct (page_data page) as [|x l] eqn:Hd.
    + cbn in Hk. injection Hk as <-. cbn. rewrite world_unchanged. reflexivity.
    + destruct (page !! "next"%string) as [c|]; [discriminate Hends|].
      cbn [map concat length] in Hk |- *. rewrite app_nil_r in Hk. rewrite Hk.
      rewrite world_unchanged. reflexivity.
  - destruct (page_data page) as [|x l] eqn:Hd.
    + cbn in Hk. injection Hk as <-. cbn. rewrite world_unchanged. reflexivity.
    + destruct (page !! "next"%string) as [c|].
      2:{ cbn [map concat length] in Hk |- *. rewrite app_nil_r in Hk. rewrite Hk.
          rewrite world_unchanged. reflexivity. }
      cbn [negb orb] in Hends. cbn [map] in Hpend. cbn [map concat] in Hk.
      apply for_each_app in Hk as (b1 & b2 & Hb1 & Hb2 & ->). rewrite Hb1.
      rewrite (perform_request_page _ _ _ _ _ _ _ _ Hpend).
      rewrite (IH page' fuel _ b2 Hpg Hends); [|reflexivity|cbn in Hfuel; lia|exact Hb2].
      cbn [yielded outcome pending sent logged default map concat length drop].
      rewrite Hpend. cbn [drop]. rewrite <- app_assoc. reflexivity.
Qed.

Lemma fetched_cursors pages :
  pages <> [] -> ends pages = true ->
  length (fetched pages) = S (length (cursors pages)).
Proof.
  induction pages as [|page pages IH]; intros Hne Hends; [congruence|].
  unfold ends in Hends. cbn [existsb fetched cursors] in Hends |- *.
  destruct (page_continues page); [|reflexivity].
  cbn [negb orb] in Hends. cbn [length]. f_equal.
  destruct pages as [|page' pages']; [discriminate Hends|].
  apply IH; [congruence | exact Hends].
Qed.

(** The paginated call on a consumer [k], over a service that answers with
    the given pages. *)
Lemma perform_pagination_request_pages {B} self url method data
    (k : pyval -> result B) pages w bs :
  forallb is_page pages = true ->
  ends pages = true ->
  pending w = map page_response pages ->
  for_each k (concat (map page_data (fetched pages))) = (bs, Ok tt) ->
  _perform_pagination_request self url method data k w
  = (mk_gen bs (Some (Ok tt)),
     mk_world (drop (length (fetched pages)) (pending w))
       (sent w ++ page_requests self url method data (cursors pages))
       (logged w)).
Proof.
  intros Hpg Hends Hpend Hk.
  destruct pages as [|page pages]; [discriminate Hends|].
  rewrite fetched_cursors by (congruence || assumption).
  unfold _perform_pagination_request. cbn [map] in Hpend.
  rewrite (perform_request_page _ _ _ _ _ _ _ _ Hpend).
  rewrite (pagination_loop_pages self url method data _ k pages page _ _ bs Hpg Hends);
    [|reflexivity|cbn [pending]; rewrite length_map; lia|exact Hk].
  cbn [pending sent logged]. rewrite Hpend. cbn [drop].
  unfold page_requests. rewrite <- app_assoc. reflexivity.
Qed.

Lemma fetched_all pages :
  forallb page_continues (removelast pages) = true -> fetched pages = pages.
Proof.
  induction pages as [|page pages IH]; [reflexivity|].
  destruct pages as [|page' pages'].
  - intros _. cbn. destruct (page_continues page); reflexivity.
  - cbn [removelast forallb fetched]. intros H.
    apply andb_true_iff in H as [-> H]. f_equal. apply IH, H.
Qed.

(** C1: over a service that answers with a sequence of pages, the
    paginated call run to its end yields exactly the concatenation of the
    [data] lists of the pages it fetches, in order, and ends normally.  It
    sends one request per fetched page: the original body first, then, for
    each page that has items and a [next] cursor, the original body with
    [start] set to that cursor; it stops at the first page without items
    or without a cursor.  When every page but the last has items and a
    cursor, the fetched pages are all the pages. *)
Theorem pagination_yields_page_data self url method data pages w :
  forallb is_page pages = true ->
  ends pages = true ->
  pending w = map page_response pages ->
  _perform_pagination_request self url method data Ok w
  = (mk_gen (concat (map page_data (fetched pages))) (Some (Ok tt)),
     mk_world (drop (length (fetched pages)) (pending w))
       (sent w ++ page_requests self url method data (cursors pages))
       (logged w))
  /\ length (page_requests self url method data (cursors pages))
     = length (fetched pages)
  /\ (forallb page_continues (removelast pages) = true -> fetched pages = pages).
Proof.
  intros Hpg Hends Hpend. split; [|split].
  - apply perform_pagination_request_pages; try assumption. apply for_each_Ok.
  - unfold page_requests. cbn [length]. rewrite length_map.
    symmetry. apply fetched_cursors; [|assumption].
    intros ->. discriminate Hends.
  - apply fetched_all.
Qed.

Lemma two_pages_facts a b c :
  forallb is_page [first_page a b; last_page c] = true
  /\ ends [first_page a b; last_page c] = true
  /\ fetched [first_page a b; last_page c] = [first_page a b; last_page c]
  /\ cursors [first_page a b; last_page c] = [PStr "c1"]
  /\ page_data (first_page a b) = [a; b]
  /\ page_data (last_page c) = [c].
Proof. repeat split; vm_compute; reflexivity. Qed.

(** For the pages [{data: [a, b], next: "c1"}] and [{data: [c]}] the
    sequence is exactly [a, b, c], and exactly two requests go out: the
    body, and the body with [start = "c1"]. *)
Lemma pagination_two_pages self url method data a b c :
  _perform_pagination_request self url method data Ok
    (mk_world [page_response (first_page a b); page_response (last_page c)] [] [])
  = (mk_gen [a; b; c] (Some (Ok tt)),
     mk_world []
       [mk_request method url (Some data) (headers self);
        mk_request method url (Some (<["start"%string := PStr "c1"]> data))
          (headers self)]
       []).
Proof.
  destruct (two_pages_facts a b c) as (Hpg & Hends & Hf & Hc & Ha & Hl).
  rewrite (perform_pagination_request_pages self url method data Ok
             [first_page a b; last_page c] _ [a; b; c] Hpg Hends).
  - rewrite Hf, Hc. reflexivity.
  - reflexivity.
  - rewrite Hf. cbn [map concat]. rewrite Ha, Hl. apply for_each_Ok.
Qed.

Lemma pagination_yields_page_data_witness :
  let self := __init__ unset_environment None None None None in
  let data : gmap string pyval := {[ "query"%string := PStr "ibm" ]} in
  let pages := [first_page (PStr "a") (PStr "b"); last_page (PStr "c")] in
  let w := mk_world (map page_response pages) [] [] in
  _perform_pagination_request self "https://api.openfigi.com/v2/search/" "POST"
    data Ok w
  = (mk_gen (concat (map page_data (fetched pages))) (Some (Ok tt)),
     mk_world (drop (length (fetched pages)) (pending w))
       (sent w ++ page_requests self "https://api.openfigi.com/v2/search/" "POST"
                    data (cursors pages))
       (logged w))
  /\ length (page_requests self "https://api.openfigi.com/v2/search/" "POST"
               data (cursors pages))
     = length (fetched pages)
  /\ (forallb page_continues (removelast pages) = true -> fetched pages = pages).
Proof.
  cbv zeta.
  apply (pagination_yields_page_data
           (__init__ unset_environment None None None None)
           "https://api.openfigi.com/v2/search/" "POST"
           {[ "query"%string := PStr "ibm" ]}
           [first_page (PStr "a") (PStr "b"); last_page (PStr "c")]
           (mk_world (map page_response
                        [first_page (PStr "a") (PStr "b"); last_page (PStr "c")])
              [] [])).
  - vm_compute. reflexivity.
  - vm_compute. reflexivity.
  - reflexivity.
Defined.

Lemma for_each_objects (ds : list (gmap string pyval)) :
  for_each object_of_part (map PDict ds)
  = (map OpenFIGIObject.from_figi_data ds, Ok tt).
Proof. induction ds as [|d ds IH]; cbn; [|rewrite IH]; reflexivity. Qed.

(** [search] over the same service: when the items of the fetched pages
    are mappings, the sequence is their result objects, in order, and the
    requests are those of the paginated call on the filter with the query
    added. *)
Lemma search_yields_objects `{pf : Platform} self query properties flt pages ds w :
  OpenFIGIProperties.as_filter (default OpenFIGIProperties.defaults properties)
  = Ok flt ->
  forallb is_page pages = true ->
  ends pages = true ->
  pending w = map page_response pages ->
  concat (map page_data (fetched pages)) = map PDict ds ->
  search self query properties w
  = (mk_gen (map OpenFIGIObject.from_figi_data ds) (Some (Ok tt)),
     mk_world (drop (length (fetched pages)) (pending w))
       (sent w ++ page_requests self (fmt (api_url self) ++ "/v2/search/") "POST"
                    (<["query"%string := PStr query]> flt) (cursors pages))
       (logged w)).
Proof.
  intros Hflt Hpg Hends Hpend Hds. unfold search. rewrite Hflt.
  apply perform_pagination_request_pages; try assumption.
  rewrite Hds. apply for_each_objects.
Qed.

(** Whatever comes back, a request takes the service's next response. *)
Lemma perform_request_consumes self url method data s w :
  pending (_perform_request self url method data s w).2 = tl (pending w)
  /\ (forall d, (_perform_request self url method data s w).1 = Ok d ->
                pending w <> []).
Proof.
  unfold _perform_request, bind_io, request, log, lift, throw, ret.
  destruct (pending w) as [|r rest]; cbn [tl]; [split; [reflexivity | discriminate]|].
  split; [|intros; discriminate].
  destruct (status_code r =? 429), (status_code r =? 413), (status_code r =? 403),
    (truthy (raise_on_error self)), (raise_for_status r), (ok r), (json r);
    reflexivity.
Qed.

(** The loop ends within its fuel as soon as the fuel exceeds the number
    of pending responses. *)
Lemma pagination_loop_ends {B} self url method data s (k : pyval -> result B) :
  forall fuel response w,
    (length (pending w) < fuel)%nat ->
    outcome (pagination_loop fuel self url method data s k response w).1 <> None.
Proof.
  induction fuel as [|fuel IH]; intros response w Hfuel; [lia|].
  cbn [pagination_loop].
  destruct (response !! "data"%string) as [v|]; [|discriminate].
  destruct (py_len v) as [[|n]|e]; try discriminate.
  destruct (for_each k (py_iter v)) as [bs [[]|e]]; [|discriminate].
  destruct (response !! "next"%string) as [c|]; [|discriminate].
  pose proof (perform_request_consumes self url method
                (Some (<["start"%string := c]> data)) (Some s) w) as [Htl Hne].
  destruct (_perform_request self url method
              (Some (<["start"%string := c]> data)) (Some s) w) as [[d|e] w'];
    [|discriminate].
  cbn [fst snd] in Htl, Hne. specialize (Hne d eq_refl).
  specialize (IH d w'). 
  destruct (pagination_loop fuel self url method data s k d w') as [g w''].
  cbn [fst outcome] in IH |- *. apply IH. rewrite Htl.
  destruct (pending w); [congruence | cbn in Hfuel |- *; lia].
Qed.

(** The paginated call always runs to an end. *)
Lemma perform_pagination_request_ends {B} self url method data
    (k : pyval -> result B) w :
  outcome (_perform_pagination_request self url method data k w).1 <> None.
Proof.
  unfold _perform_pagination_request.
  destruct (_perform_request self url method (Some data)
              (Some (create_session self)) w) as [[d|e] w']; [|discriminate].
  apply pagination_loop_ends. lia.
Qed.

(** *** Failure statuses *)

(** A response with a failure status raises its exception when
    raise-on-error is on, and turns into the empty mapping when it is
    off. *)
Lemma perform_request_error_status self url method data s r rest w :
  pending w = r :: rest ->
  is_error_status r = true ->
  (_perform_request self url method data s w).1
  = if truthy (raise_on_error self) then Raise (status_error (status_code r))
    else Ok ∅.
Proof.
  intros Hpend Herr.
  unfold _perform_request, bind_io, request, log, lift, throw, ret, status_error,
    raise_for_status, ok.
  rewrite Hpend, Herr.
  destruct (status_code r =? 429), (status_code r =? 413), (status_code r =? 403),
    (truthy (raise_on_error self)); reflexivity.
Qed.

(** A response without a failure status never raises a status error. *)
Lemma perform_request_ok_status self url method data s r rest w :
  pending w = r :: rest ->
  is_error_status r = false ->
  (_perform_request self url method data s w).1 = json r.
Proof.
  intros Hpend Herr.
  assert (H429 : (status_code r =? 429) = false).
  { unfold is_error_status in Herr. destruct (Z.eqb_spec (status_code r) 429) as [E|]; [|reflexivity].
    rewrite E in Herr. discriminate Herr. }
  assert (H413 : (status_code r =? 413) = false).
  { unfold is_error_status in Herr. destruct (Z.eqb_spec (status_code r) 413) as [E|]; [|reflexivity].
    rewrite E in Herr. discriminate Herr. }
  assert (H403 : (status_code r =? 403) = false).
  { unfold is_error_status in Herr. destruct (Z.eqb_spec (status_code r) 403) as [E|]; [|reflexivity].
    rewrite E in Herr. discriminate Herr. }
  unfold _perform_request, bind_io, request, log, lift, throw, ret,
    raise_for_status, ok.
  rewrite Hpend, Herr, H429, H413, H403.
  destruct (truthy (raise_on_error self)); reflexivity.
Qed.

(** With raise-on-error off, a failure status makes [search] an empty
    sequence that ends normally. *)
Lemma search_error_status `{pf : Platform} self query properties flt r rest w :
  OpenFIGIProperties.as_filter (default OpenFIGIProperties.defaults properties)
  = Ok flt ->
  truthy (raise_on_error self) = false ->
  pending w = r :: rest ->
  is_error_status r = true ->
  (search self query properties w).1 = mk_gen [] (Some (Ok tt)).
Proof.
  intros Hflt Hflag Hpend Herr. unfold search. rewrite Hflt.
  unfold _perform_pagination_request.
  pose proof (perform_request_error_status self
                (fmt (api_url self) ++ "/v2/search/") "POST"
                (Some (<["query"%string := PStr query]> flt))
                (Some (create_session self)) r rest w Hpend Herr) as H.
  rewrite Hflag in H.
  destruct (_perform_request self (fmt (api_url self) ++ "/v2/search/") "POST"
              (Some (<["query"%string := PStr query]> flt))
              (Some (create_session self)) w) as [res w'].
  cbn [fst] in H. subst res. reflexivity.
Qed.

(** With raise-on-error off, a failure status makes [mapping_values]
    raise: the empty mapping has no key "values". *)
Lemma mapping_values_error_status self v r rest w :
  truthy (raise_on_error self) = false ->
  pending w = r :: rest ->
  is_error_status r = true ->
  (mapping_values self (Some v) w).1 = Raise (KeyError "values").
Proof.
  intros Hflag Hpend Herr. unfold mapping_values, bind_io.
  pose proof (perform_request_error_status self
                (fmt (api_url self) ++ "/v2/mapping/values/" ++ value v) "GET"
                None None r rest w Hpend Herr) as H.
  rewrite Hflag in H.
  destruct (_perform_request self
              (fmt (api_url self) ++ "/v2/mapping/values/" ++ value v) "GET"
              None None w) as [res w'].
  cbn [fst] in H. subst res. reflexivity.
Qed.

(** With raise-on-error off, a failure status on the first request makes
    a paginated call an empty sequence that ends normally. *)
Lemma perform_pagination_request_error_status {B} self url method data
    (k : pyval -> result B) r rest w :
  truthy (raise_on_error self) = false ->
  pending w = r :: rest ->
  is_error_status r = true ->
  (_perform_pagination_request self url method data k w).1
  = mk_gen [] (Some (Ok tt)).
Proof.
  intros Hflag Hpend Herr. unfold _perform_pagination_request.
  pose proof (perform_request_error_status self url method (Some data)
                (Some (create_session self)) r rest w Hpend Herr) as H.
  rewrite Hflag in H.
  destruct (_perform_request self url method (Some data)
              (Some (create_session self)) w) as [res w'].
  cbn [fst] in H. subst res. reflexivity.
Qed.

Lemma as_filter_defaults `{pf : Platform} :
  OpenFIGIProperties.as_filter OpenFIGIProperties.defaults = Ok ∅.
Proof. vm_compute. reflexivity. Qed.

(** C6: the code departs from the claim in [mapping_values].  With
    raise-on-error off, a response with a failure status that the session
    hands back to the caller (one outside the [status_forcelist] of its
    adapter, such as 403 or 500) makes [search] an empty sequence, but
    makes [mapping_values] raise [KeyError] instead of returning an empty
    result. *)
Theorem mapping_values_failure_status_raises `{pf : Platform}
    self query v r rest w :
  truthy (raise_on_error self) = false ->
  pending w = r :: rest ->
  is_error_status r = true ->
  status_code r ∉ status_forcelist (create_session self) ->
  (search self query None w).1 = mk_gen [] (Some (Ok tt))
  /\ (mapping_values self (Some v) w).1 = Raise (KeyError "values").
Proof.
  intros Hflag Hpend Herr _. split.
  - unfold search.
    change (default OpenFIGIProperties.defaults None)
      with OpenFIGIProperties.defaults.
    rewrite as_filter_defaults.
    apply (perform_pagination_request_error_status _ _ _ _ _ r rest);
      assumption.
  - apply (mapping_values_error_status self v r rest); assumption.
Qed.

Lemma mapping_values_failure_status_raises_witness :
  (@search glibc (__init__ unset_environment None None None None) "ibm" None
     (mk_world [mk_response 403 None] [] [])).1
  = mk_gen [] (Some (Ok tt))
  /\ (mapping_values (__init__ unset_environment None None None None)
        (Some EXCHANGE_CODE) (mk_world [mk_response 403 None] [] [])).1
     = Raise (KeyError "values").
Proof.
  apply (@mapping_values_failure_status_raises glibc
           (__init__ unset_environment None None None None) "ibm" EXCHANGE_CODE
           (mk_response 403 None) []).
  - reflexivity.
  - reflexivity.
  - reflexivity.
  - intros H. apply list_elem_of_In in H. cbn in H. destruct H as [H|[]].
    discriminate H.
Defined.

(** *** Construction *)

(** Arguments that are truthy are the ones the client uses. *)
Lemma init_truthy_arguments cls key url n :
  key <> ""%string -> url <> ""%string -> n <> 0 ->
  __init__ cls (Some true) (Some key) (Some url) (Some n)
  = mk (Some true) (Some n) (Some key) (Some url).
Proof.
  intros Hk Hu Hn. unfold __init__, py_or.
  rewrite (truthy_bound_nonzero (Some n)) by congruence.
  destruct key; [congruence|]. destruct url; [congruence|]. reflexivity.
Qed.

(** Arguments that are not given fall back on the class attributes. *)
Lemma init_no_arguments cls :
  __init__ cls None None None None
  = mk (Some (API_RAISE_ON_ERROR cls)) (Some (API_RETRY_COUNT cls))
       (API_KEY cls) (Some (API_URL cls)).
Proof. reflexivity. Qed.

(** C9: the code departs from the claim on arguments that are given but
    falsy.  With the environment default of raise-on-error on, a client
    constructed with [raise_on_error=False] has the flag on; with the
    default retry count 2, a client constructed with [api_retry_count=0]
    has retry count 2. *)
Theorem init_falsy_arguments_fall_back :
  raise_on_error
    (__init__ (mk_class None OPEN_FIGI_DEFAULT_URL true 2)
       (Some false) None None None) = Some true
  /\ api_retry_count (__init__ unset_environment None None None (Some 0))
     = Some 2.
Proof. split; reflexivity. Qed.

End Client.

(** * Further properties *)

(** ** The calendar order *)

Section CalendarOrder.

Lemma days_before_year_mono y1 y2 :
  y1 <= y2 -> _days_before_year y1 <= _days_before_year y2.
Proof. intros H. unfold _days_before_year. Z.div_mod_to_equations. lia. Qed.

Lemma days_before_month_step leap m :
  1 <= m <= 11 -> dbm_flag leap m + dim_flag leap m = dbm_flag leap (m + 1).
Proof.
  intros Hm.
  pose (chk := fun l k => (k =? 0) || (dbm_flag l k + dim_flag l k =? dbm_flag l (k + 1))).
  assert (Hchk : chk leap m = true).
  { destruct leap.
    - apply (forallb_Z_range (chk true) 12); [vm_compute; reflexivity | lia].
    - apply (forallb_Z_range (chk false) 12); [vm_compute; reflexivity | lia]. }
  unfold chk in Hchk. apply orb_true_iff in Hchk as [H0 | H1].
  - apply Z.eqb_eq in H0. lia.
  - apply Z.eqb_eq in H1. exact H1.
Qed.

Lemma days_before_month_mono leap m1 m2 :
  1 <= m1 -> m1 <= m2 -> m2 <= 12 -> dbm_flag leap m1 <= dbm_flag leap m2.
Proof.
  intros H1 H12 H2.
  replace m2 with (m1 + Z.of_nat (Z.to_nat (m2 - m1))) by lia.
  assert (Hk : m1 + Z.of_nat (Z.to_nat (m2 - m1)) <= 12) by lia.
  induction (Z.to_nat (m2 - m1)) as [|k IH]; [rewrite Z.add_0_r; lia|].
  replace (m1 + Z.of_nat (S k)) with (m1 + Z.of_nat k + 1) in * by lia.
  rewrite <- days_before_month_step by lia.
  assert (0 <= dim_flag leap (m1 + Z.of_nat k)).
  { pose proof (day_of_year_bounds leap (m1 + Z.of_nat k) 1 ltac:(lia)) as Hb.
    unfold dim_flag, tbl in *.
    destruct ((m1 + Z.of_nat k =? 2) && leap); [lia|].
    assert (Hn : (1 <= Z.to_nat (m1 + Z.of_nat k) <= 11)%nat) by lia.
    destruct (Z.to_nat (m1 + Z.of_nat k)) as [|n]; [lia|].
    do 11 (destruct n as [|n]; [cbn; lia|]). lia. }
  specialize (IH ltac:(lia)). lia.
Qed.

Lemma valid_fields d :
  valid d = true ->
  1 <= year d <= 9999 /\ 1 <= month d <= 12
  /\ 1 <= day d <= dim_flag (_is_leap (year d)) (month d).
Proof.
  unfold valid, MINYEAR, MAXYEAR. intros H.
  repeat (apply andb_true_iff in H as [H ?]).
  rewrite days_in_month_flag in *. lia.
Qed.

Lemma toordinal_flag d :
  toordinal d
  = _days_before_year (year d) + dbm_flag (_is_leap (year d)) (month d) + day d.
Proof. reflexivity. Qed.

(** A date that comes first as a triple comes first by its ordinal. *)
Lemma toordinal_lt d1 d2 :
  valid d1 = true -> valid d2 = true -> _cmp d1 d2 = Lt ->
  toordinal d1 < toordinal d2.
Proof.
  intros H1 H2 Hc.
  destruct (valid_fields d1 H1) as (Hy1 & Hm1 & Hd1).
  destruct (valid_fields d2 H2) as (Hy2 & Hm2 & Hd2).
  rewrite !toordinal_flag. unfold _cmp in Hc.
  destruct (year d1 ?= year d2) eqn:Ey; try discriminate.
  - apply Z.compare_eq in Ey.
    destruct (month d1 ?= month d2) eqn:Em; try discriminate.
    + apply Z.compare_eq in Em. apply -> Z.compare_lt_iff in Hc.
      rewrite Ey, Em. lia.
    + apply -> Z.compare_lt_iff in Em. rewrite Ey in *.
      pose proof (days_before_month_step (_is_leap (year d2)) (month d1) ltac:(lia)).
      pose proof (days_before_month_mono (_is_leap (year d2)) (month d1 + 1) (month d2)
                    ltac:(lia) ltac:(lia) ltac:(lia)).
      lia.
  - apply -> Z.compare_lt_iff in Ey.
    pose proof (day_of_year_bounds _ _ _ Hm1 Hd1).
    pose proof (day_of_year_bounds _ _ _ Hm2 Hd2).
    pose proof (days_before_next_year (year d1)).
    pose proof (days_before_year_mono (year d1 + 1) (year d2) ltac:(lia)).
    lia.
Qed.

Lemma cmp_swap d1 d2 : _cmp d2 d1 = CompOpp (_cmp d1 d2).
Proof.
  unfold _cmp. rewrite (Z.compare_antisym (year d1)), (Z.compare_antisym (month d1)),
    (Z.compare_antisym (day d1)).
  destruct (year d1 ?= year d2), (month d1 ?= month d2), (day d1 ?= day d2); reflexivity.
Qed.

Lemma cmp_eq d1 d2 : _cmp d1 d2 = Eq -> d1 = d2.
Proof.
  unfold _cmp. destruct d1 as [y1 m1 a1], d2 as [y2 m2 a2]. cbn [year month day].
  destruct (Z.compare_spec y1 y2); try discriminate.
  destruct (Z.compare_spec m1 m2); try discriminate.
  intros Hd%Z.compare_eq. congruence.
Qed.

(** On dates of the calendar, the order of the triples is the order of
    the ordinals. *)
Lemma cmp_toordinal d1 d2 :
  valid d1 = true -> valid d2 = true ->
  _cmp d1 d2 = (toordinal d1 ?= toordinal d2).
Proof.
  intros H1 H2. destruct (_cmp d1 d2) eqn:Hc; symmetry.
  - apply cmp_eq in Hc. subst. apply Z.compare_refl.
  - apply Z.compare_lt_iff, toordinal_lt; assumption.
  - apply Z.compare_gt_iff, toordinal_lt; try assumption.
    rewrite cmp_swap, Hc. reflexivity.
Qed.

Lemma fromordinal_toordinal d : valid d = true -> fromordinal (toordinal d) = d.
Proof.
  intros Hd. pose proof (toordinal_bounds d Hd) as Hb.
  apply cmp_eq. rewrite cmp_toordinal; [|apply valid_fromordinal; lia|assumption].
  rewrite toordinal_fromordinal by lia. apply Z.compare_refl.
Qed.

End CalendarOrder.
(** ** More on the range normaliser *)

Section RangeNormaliserMore.

(** On dates of the calendar the validity check compares days: it fails
    when no bound is present and when the lower bound is a later day than
    the upper one, and succeeds otherwise. *)
Theorem date_range_check_by_ordinal (lo hi : option date) :
  (forall d, lo = Some d \/ hi = Some d -> valid d = true) ->
  assert_data_range_is_valid (lo, hi)
  = match lo, hi with
    | None, None => Raise AssertionError
    | Some a, Some b =>
        if toordinal a <=? toordinal b then Ok tt else Raise AssertionError
    | _, _ => Ok tt
    end.
Proof.
  intros Hv. rewrite assert_data_range_is_valid_dates.
  destruct lo as [a|], hi as [b|]; try reflexivity.
  rewrite (cmp_toordinal b a) by (apply Hv; auto).
  destruct (Z.compare_spec (toordinal b) (toordinal a)) as [E|L|G];
    destruct (Z.leb_spec (toordinal a) (toordinal b)); try reflexivity; lia.
Qed.

Lemma date_range_check_by_ordinal_witness :
  assert_data_range_is_valid
    (Some (mkdate 2020 12 12), Some (mkdate 2020 11 12))
  = (if toordinal (mkdate 2020 12 12) <=? toordinal (mkdate 2020 11 12)
     then Ok tt else Raise AssertionError).
Proof.
  apply (date_range_check_by_ordinal
           (Some (mkdate 2020 12 12)) (Some (mkdate 2020 11 12))).
  intros d [[= <-] | [= <-]]; reflexivity.
Defined.

(** Where the comparison of two bounds always answers, the comparison
    with [None] is out of reach: [all] stands guard before it. *)
Lemma range_check_outcome {A} `{Truthy A} `{PyGe A} (r : option A * option A) :
  assert_data_range_is_valid r = Ok tt
  \/ assert_data_range_is_valid r = Raise AssertionError.
Proof.
  destruct r as [[a|] [b|]]; unfold assert_data_range_is_valid, py_any, py_all;
    cbn [fst snd length Nat.eqb py_assert bind existsb forallb truthy truthy_option];
    try (destruct (truthy a)); try (destruct (truthy b));
    cbn [orb andb py_assert bind opt_ge]; auto.
  destruct (py_ge b a); auto.
Qed.

(** On a range of integers and on a range of plain dates the validity
    check ends in success or in an [AssertionError], and in no other
    exception: the type error of a comparison with [None] cannot come out
    of it. *)
Theorem range_check_raises_only_assertion :
  (forall r : NumberRange,
     assert_data_range_is_valid r = Ok tt
     \/ assert_data_range_is_valid r = Raise AssertionError)
  /\ (forall r : DateRange,
        assert_data_range_is_valid r = Ok tt
        \/ assert_data_range_is_valid r = Raise AssertionError).
Proof. split; intros r; apply range_check_outcome. Qed.

Lemma assert_data_range_is_valid_nonzero_witness :
  assert_data_range_is_valid (Some 5, Some 3) = Raise AssertionError.
Proof.
  apply (assert_data_range_is_valid_nonzero (Some 5) (Some 3)); congruence.
Defined.

Lemma convert_number_range_to_string_nonzero_witness :
  convert_number_range_to_string (Some (Some 100, None)) = Some [Some 100; None].
Proof.
  apply (convert_number_range_to_string_nonzero (Some 100) None); congruence.
Defined.

(** A range with a single bound is converted or overflows the calendar,
    and nothing else. *)
Lemma add_days_outcome d k :
  valid d = true ->
  (exists d', add_days d k = Ok d' /\ valid d' = true /\ toordinal d' = toordinal d + k)
  \/ add_days d k = Raise OverflowError.
Proof.
  intros Hd.
  destruct (Z.le_gt_cases 1 (toordinal d + k)) as [Hlo|Hlo];
    [destruct (Z.le_gt_cases (toordinal d + k) _MAXORDINAL) as [Hhi|Hhi]|].
  - left. apply add_days_in_range; [assumption | lia].
  - right. unfold add_days. cbv zeta.
    destruct (Z.leb_spec (toordinal d + k) _MAXORDINAL); [lia|].
    rewrite andb_false_r. reflexivity.
  - right. unfold add_days. cbv zeta.
    destruct (Z.ltb_spec 0 (toordinal d + k)); [lia|]. reflexivity.
Qed.

(** The failures of the date conversion: no range gives no list, a range
    without any bound is a type error, and a single bound less than 364
    days from the end of the calendar it has to be extended towards is an
    overflow. *)
Theorem date_range_conversion_failures `{pf : Platform} (d : date) :
  valid d = true ->
  convert_date_range_to_string None = Ok None
  /\ convert_date_range_to_string (Some (None, None)) = Raise TypeError
  /\ (_MAXORDINAL < toordinal d + 364 ->
      convert_date_range_to_string (Some (Some d, None)) = Raise OverflowError)
  /\ (toordinal d <= 364 ->
      convert_date_range_to_string (Some (None, Some d)) = Raise OverflowError).
Proof.
  intros Hd. split; [reflexivity|]. split; [reflexivity|]. split; intros Hout.
  - unfold convert_date_range_to_string, py_or_lazy, opt_date_add.
    change (weeks 52) with 364. cbn [truthy truthy_option truthy_date bind].
    unfold add_days. cbv zeta.
    destruct (Z.leb_spec (toordinal d + 364) _MAXORDINAL); [lia|].
    rewrite andb_false_r. reflexivity.
  - unfold convert_date_range_to_string, py_or_lazy, opt_date_sub, sub_days.
    change (weeks 52) with 364. cbn [truthy truthy_option truthy_date bind].
    unfold add_days. cbv zeta.
    destruct (Z.ltb_spec 0 (toordinal d + - (364))); [lia|]. reflexivity.
Qed.

Lemma date_range_conversion_failures_witness :
  @convert_date_range_to_string glibc None = Ok None
  /\ @convert_date_range_to_string glibc (Some (None, None)) = Raise TypeError
  /\ (_MAXORDINAL < toordinal (mkdate 9999 6 1) + 364 ->
      @convert_date_range_to_string glibc (Some (Some (mkdate 9999 6 1), None))
      = Raise OverflowError)
  /\ (toordinal (mkdate 9999 6 1) <= 364 ->
      @convert_date_range_to_string glibc (Some (None, Some (mkdate 9999 6 1)))
      = Raise OverflowError).
Proof.
  apply (@date_range_conversion_failures glibc (mkdate 9999 6 1)). reflexivity.
Defined.

(** Filling in the upper bound and then dropping the lower one leads back
    to the same list: the three ranges (lo, None), (None, lo + 364 days)
    and (lo, lo + 364 days) are converted alike. *)
Theorem date_range_normalisation_round_trip `{pf : Platform} (lo hi : date) :
  valid lo = true -> add_days lo 364 = Ok hi ->
  convert_date_range_to_string (Some (None, Some hi))
  = convert_date_range_to_string (Some (Some lo, None))
  /\ convert_date_range_to_string (Some (Some lo, Some hi))
     = convert_date_range_to_string (Some (Some lo, None)).
Proof.
  intros Hlo Hadd.
  assert (Hback : add_days hi (-364) = Ok lo).
  { pose proof (toordinal_bounds lo Hlo) as Hb.
    unfold add_days in Hadd |- *. cbv zeta in Hadd |- *.
    destruct ((0 <? toordinal lo + 364) && (toordinal lo + 364 <=? _MAXORDINAL))
      eqn:Hin; [|discriminate Hadd].
    injection Hadd as <-. apply andb_true_iff in Hin as [_ Hmax].
    apply Z.leb_le in Hmax.
    rewrite toordinal_fromordinal by lia.
    replace (toordinal lo + 364 + -364) with (toordinal lo) by lia.
    destruct (Z.ltb_spec 0 (toordinal lo)); [|lia].
    destruct (Z.leb_spec (toordinal lo) _MAXORDINAL); [|lia].
    cbn [andb]. f_equal. apply fromordinal_toordinal, Hlo. }
  rewrite (convert_lower_only lo hi Hadd), (convert_upper_only lo hi Hback).
  split; reflexivity.
Qed.

Lemma date_range_normalisation_round_trip_witness :
  @convert_date_range_to_string glibc (Some (None, Some (mkdate 2021 11 11)))
  = @convert_date_range_to_string glibc (Some (Some (mkdate 2020 11 12), None))
  /\ @convert_date_range_to_string glibc
       (Some (Some (mkdate 2020 11 12), Some (mkdate 2021 11 11)))
     = @convert_date_range_to_string glibc (Some (Some (mkdate 2020 11 12), None)).
Proof.
  apply (@date_range_normalisation_round_trip glibc
           (mkdate 2020 11 12) (mkdate 2021 11 11)); reflexivity.
Defined.

(** The rendering loses nothing: two ranges of dates from the year 1000
    on, with both bounds present, that are converted to the same list are
    the same range. *)
Theorem date_range_rendering_injective `{pf : Platform} (a b c d : date) :
  valid a = true -> valid b = true -> valid c = true -> valid d = true ->
  1000 <= year a -> 1000 <= year b -> 1000 <= year c -> 1000 <= year d ->
  convert_date_range_to_string (Some (Some a, Some b))
  = convert_date_range_to_string (Some (Some c, Some d)) ->
  a = c /\ b = d.
Proof.
  intros Ha Hb Hc Hd Ya Yb Yc Yd Heq.
  rewrite !convert_both in Heq. injection Heq as Hac Hbd.
  assert (Hp : forall x, valid x = true -> 1000 <= year x ->
                 parse_Ymd (strftime_Ymd x) = Some x).
  { intros x Hx Yx. apply parse_strftime; [exact Hx|].
    apply orb_true_iff. left. apply Z.leb_le, Yx. }
  split.
  - pose proof (Hp a Ha Ya) as Pa. rewrite Hac, (Hp c Hc Yc) in Pa. congruence.
  - pose proof (Hp b Hb Yb) as Pb. rewrite Hbd, (Hp d Hd Yd) in Pb. congruence.
Qed.

Lemma date_range_rendering_injective_witness :
  mkdate 2020 11 12 = mkdate 2020 11 12 /\ mkdate 2021 1 2 = mkdate 2021 1 2.
Proof.
  apply (@date_range_rendering_injective glibc
           (mkdate 2020 11 12) (mkdate 2021 1 2) (mkdate 2020 11 12) (mkdate 2021 1 2));
    try reflexivity; vm_compute; congruence.
Defined.

End RangeNormaliserMore.

(** ** More on the filter builder *)

Section FilterBuilderMore.

Import OpenFIGIProperties.

Lemma post_init_date_range_checks_witness :
  new (mk None None None None None (Some "Option"%string) None None None None None
         (Some (Some (mkdate 2020 12 12), Some (mkdate 2020 11 12))) None None)
  = Raise AssertionError.
Proof.
  apply (post_init_date_range_checks _
           (Some (mkdate 2020 12 12), Some (mkdate 2020 11 12))).
  - left. reflexivity.
  - right. exists (mkdate 2020 12 12), (mkdate 2020 11 12). split; reflexivity.
Defined.

(** Construction from fields of their annotated types, the bounds of the
    date ranges being plain dates, ends in the object or in an
    [AssertionError], never in another exception, and the object is the
    fields as they were given. *)
Theorem construction_raises_only_assertion (p : OpenFIGIProperties.t) :
  new p = Ok p \/ new p = Raise AssertionError.
Proof.
  unfold new. rewrite post_init_blocks.
  destruct (block_outcome (security_type_2 p) ["Option"; "Warrant"]%string
              (expiration p)) as [-> | ->]; [|right; reflexivity].
  destruct (block_outcome (security_type_2 p) ["Pool"]%string (maturity p))
    as [-> | ->]; [left | right]; reflexivity.
Qed.

(** No filter has both an expiration and a maturity: the two subtype
    checks exclude each other. *)
Theorem expiration_excludes_maturity (p : OpenFIGIProperties.t) :
  expiration p <> None -> maturity p <> None -> new p = Raise AssertionError.
Proof.
  intros He Hm. apply new_fails.
  destruct (py_in (security_type_2 p) ["Pool"]%string) eqn:Hpool.
  - apply post_init_fails_left, block_wrong_subtype; [exact He|].
    unfold py_in in Hpool |- *. cbn [existsb] in Hpool |- *.
    rewrite orb_false_r in Hpool. apply bool_decide_eq_true in Hpool.
    rewrite Hpool. reflexivity.
  - apply post_init_fails_right, block_wrong_subtype; assumption.
Qed.

Lemma expiration_excludes_maturity_witness :
  new (mk None None None None None (Some "Pool"%string) None None None None None
         (Some (Some (mkdate 2020 12 11), None))
         (Some (None, Some (mkdate 2020 12 11))) None)
  = Raise AssertionError.
Proof. apply expiration_excludes_maturity; cbn; congruence. Defined.

(** A filter without date ranges is constructed whatever its other
    fields hold, and gives a wire mapping. *)
Theorem construction_without_date_ranges `{pf : Platform} (p : OpenFIGIProperties.t) :
  expiration p = None -> maturity p = None ->
  new p = Ok p /\ exists m, as_filter p = Ok m.
Proof.
  intros He Hm. split.
  - unfold new, __post_init__. rewrite He, Hm. reflexivity.
  - rewrite as_filter_unfold, He, Hm. eexists. reflexivity.
Qed.

Lemma construction_without_date_ranges_witness :
  new (mk None None None None None (Some "Pool"%string) None None
         (Some (Some 5, Some 3)) None None None None None)
  = Ok (mk None None None None None (Some "Pool"%string) None None
          (Some (Some 5, Some 3)) None None None None None)
  /\ exists m,
       @as_filter glibc
         (mk None None None None None (Some "Pool"%string) None None
            (Some (Some 5, Some 3)) None None None None None) = Ok m.
Proof. apply (@construction_without_date_ranges glibc); reflexivity. Defined.

(** The conversion of a date range that passed the validity check gives
    a list or overflows the calendar. *)
Lemma convert_checked_range `{pf : Platform} (r : option DateRange) :
  (forall d, r = Some (Some d, None) \/ r = Some (None, Some d) -> valid d = true) ->
  match r with
  | Some x => assert_data_range_is_valid x = Ok tt
  | None => True
  end ->
  (exists l, convert_date_range_to_string r = Ok l)
  \/ convert_date_range_to_string r = Raise OverflowError.
Proof.
  intros Hv Hchk. destruct r as [[[lo|] [hi|]]|].
  - left. eexists. apply convert_both.
  - destruct (add_days_outcome lo 364 (Hv lo (or_introl eq_refl)))
      as [(d' & Hadd & _) | Hover].
    + left. eexists. apply (convert_lower_only lo d' Hadd).
    + right. unfold convert_date_range_to_string, py_or_lazy, opt_date_add.
      change (weeks 52) with 364. cbn [truthy truthy_option truthy_date bind].
      rewrite Hover. reflexivity.
  - destruct (add_days_outcome hi (-364) (Hv hi (or_intror eq_refl)))
      as [(d' & Hadd & _) | Hover].
    + left. eexists. apply (convert_upper_only d' hi Hadd).
    + right. unfold convert_date_range_to_string, py_or_lazy, opt_date_sub, sub_days.
      change (weeks 52) with 364. cbn [truthy truthy_option truthy_date bind].
      change (- (364)) with (-364). rewrite Hover. reflexivity.
  - discriminate Hchk.
  - left. eexists. reflexivity.
Qed.

Lemma block_passed subtype allowed (r : option DateRange) :
  block subtype allowed r = Ok tt ->
  match r with
  | Some x => assert_data_range_is_valid x = Ok tt
  | None => True
  end.
Proof.
  unfold block. destruct r as [x|]; [|trivial].
  cbn [truthy truthy_option truthy_pair].
  destruct (py_in subtype allowed); cbn [py_assert bind]; [auto | discriminate].
Qed.

(** A filter that was constructed, with dates of the calendar, always
    gives a wire mapping unless a date range overflows the calendar: the
    type errors of the conversion are out of reach. *)
Theorem as_filter_of_constructed `{pf : Platform} (p : OpenFIGIProperties.t) :
  (forall lo hi d, expiration p = Some (lo, hi) \/ maturity p = Some (lo, hi) ->
                   lo = Some d \/ hi = Some d -> valid d = true) ->
  new p = Ok p ->
  (exists m, as_filter p = Ok m) \/ as_filter p = Raise OverflowError.
Proof.
  intros Hv Hnew. unfold new in Hnew. rewrite post_init_blocks in Hnew.
  destruct (block (security_type_2 p) ["Option"; "Warrant"]%string (expiration p))
    as [[]|e] eqn:He; [|discriminate Hnew].
  destruct (block (security_type_2 p) ["Pool"]%string (maturity p))
    as [[]|e] eqn:Hm; [|discriminate Hnew].
  apply block_passed in He, Hm. rewrite as_filter_unfold.
  destruct (convert_checked_range (expiration p)) as [[l1 ->] | ->];
    [|exact He| |right; reflexivity].
  { intros d [E|E]; eapply Hv; eauto. }
  destruct (convert_checked_range (maturity p)) as [[l2 ->] | ->];
    [|exact Hm| |right; reflexivity].
  { intros d [E|E]; eapply Hv; eauto. }
  left. eexists. reflexivity.
Qed.

Lemma as_filter_of_constructed_witness :
  (exists m,
      @as_filter glibc
        (mk None None None None None (Some "Option"%string) None None None None None
           (Some (Some (mkdate 2020 12 11), None)) None None) = Ok m)
  \/ @as_filter glibc
       (mk None None None None None (Some "Option"%string) None None None None None
          (Some (Some (mkdate 2020 12 11), None)) None None) = Raise OverflowError.
Proof.
  apply (@as_filter_of_constructed glibc).
  - intros lo hi d [[= <- <-] | [=]] [[= <-] | [=]]. reflexivity.
  - reflexivity.
Defined.

End FilterBuilderMore.

(** *** The cases of the repository's tests *)

Section RepositoryTests.

Import OpenFIGIProperties.

(** [test_properties_propagated_when_calling_filter]: each property
    object of the test is constructed and its wire mapping is the expected
    one. *)
Theorem test_properties_propagated `{pf : Platform} :
  let filter_of fields := let* p := new fields in as_filter p in
  let str (s : string) := Some s in
  filter_of (mk (str "NYSE") None None None None None None None None None None None None None)
  = Ok {[ "exchCode"%string := PStr "NYSE" ]}
  /\ filter_of (mk None (str "A2XX") None None None None None None None None None None None None)
     = Ok {[ "micCode"%string := PStr "A2XX" ]}
  /\ filter_of (mk None None (str "USD") None None None None None None None None None None None)
     = Ok {[ "currency"%string := PStr "USD" ]}
  /\ filter_of (mk None None None (str "Equity") None None None None None None None None None None)
     = Ok {[ "marketSecDes"%string := PStr "Equity" ]}
  /\ filter_of (mk None None None None (str "Financial index option.") None None None None None None None None None)
     = Ok {[ "securityType"%string := PStr "Financial index option." ]}
  /\ filter_of (mk None None None None None (str "Option") None None None None None None None None)
     = Ok {[ "securityType2"%string := PStr "Option" ]}
  /\ filter_of (mk None None None None None None (Some true) None None None None None None None)
     = Ok {[ "includeUnlistedEquities"%string := PBool true ]}
  /\ filter_of (mk None None None None None None None (str "Call") None None None None None None)
     = Ok {[ "optionType"%string := PStr "Call" ]}
  /\ filter_of (mk None None None None None None None None (Some (Some 2, Some 3)) None None None None None)
     = Ok {[ "strike"%string := PList [PInt 2; PInt 3] ]}
  /\ filter_of (mk None None None None None None None None None (Some (Some 100, None)) None None None None)
     = Ok {[ "contractSize"%string := PList [PInt 100; PNone] ]}
  /\ filter_of (mk None None None None None None None None None None (Some (Some 100, Some 100)) None None None)
     = Ok {[ "coupon"%string := PList [PInt 100; PInt 100] ]}
  /\ filter_of (mk None None None None None (str "Option") None None None None None
                  (Some (Some (mkdate 2020 12 11), None)) None None)
     = Ok {[ "securityType2"%string := PStr "Option";
             "expiration"%string := PList [PStr "2020-12-11"; PStr "2021-12-10"] ]}
  /\ filter_of (mk None None None None None (str "Pool") None None None None None None
                  (Some (None, Some (mkdate 2020 12 11))) None)
     = Ok {[ "securityType2"%string := PStr "Pool";
             "maturity"%string := PList [PStr "2019-12-13"; PStr "2020-12-11"] ]}
  /\ filter_of (mk None None None None None None None None None None None None None (str "NY"))
     = Ok {[ "stateCode"%string := PStr "NY" ]}
  /\ filter_of defaults = Ok ∅.
Proof. cbv zeta. repeat split; vm_compute; reflexivity. Qed.

(** [test_data_range_assertion] and [test_date_range_to_string]: the eight
    ranges of the first test pass or fail the validity check as the test
    expects, and the four of the second are converted as it expects. *)
Theorem test_ranges `{pf : Platform} :
  assert_data_range_is_valid (@None Z, @None Z) = Raise AssertionError
  /\ assert_data_range_is_valid (Some 3, Some 5) = Ok tt
  /\ assert_data_range_is_valid (None, Some 5) = Ok tt
  /\ assert_data_range_is_valid (Some 2, @None Z) = Ok tt
  /\ assert_data_range_is_valid (Some (mkdate 2020 11 12), None) = Ok tt
  /\ assert_data_range_is_valid (None, Some (mkdate 2020 11 12)) = Ok tt
  /\ assert_data_range_is_valid
       (Some (mkdate 2020 11 12), Some (mkdate 2020 11 12)) = Ok tt
  /\ assert_data_range_is_valid
       (Some (mkdate 2020 12 12), Some (mkdate 2020 11 12)) = Raise AssertionError
  /\ convert_date_range_to_string (Some (Some (mkdate 2020 11 12), None))
     = Ok (Some ["2020-11-12"; "2021-11-11"]%string)
  /\ convert_date_range_to_string (Some (None, Some (mkdate 2020 11 12)))
     = Ok (Some ["2019-11-14"; "2020-11-12"]%string)
  /\ convert_date_range_to_string
       (Some (Some (mkdate 2020 11 12), Some (mkdate 2020 11 12)))
     = Ok (Some ["2020-11-12"; "2020-11-12"]%string)
  /\ convert_date_range_to_string None = Ok None.
Proof. repeat split; reflexivity. Qed.

End RepositoryTests.

(** ** More on result objects and mapping values *)

Section ResultObjectsMore.

Import OpenFIGIObject.

(** The result object depends on the item only through what [get] returns
    for the eleven wire keys: a key that is missing and a key that holds
    null cannot be told apart, and no other key matters. *)
Theorem from_figi_data_extensional (d1 d2 : gmap string pyval) :
  (forall k, k ∈ wire_keys -> dict_get d1 k = dict_get d2 k) ->
  from_figi_data d1 = from_figi_data d2.
Proof.
  intros H. unfold from_figi_data.
  rewrite !(H _) by (apply list_elem_of_In; cbn; auto 20).
  reflexivity.
Qed.

Lemma from_figi_data_extensional_witness :
  from_figi_data {[ "name"%string := PNone; "ticker"%string := PStr "IBM" ]}
  = from_figi_data ∅.
Proof.
  apply from_figi_data_extensional. intros k Hk. unfold wire_keys in Hk.
  repeat (apply elem_of_cons in Hk as [-> | Hk]; [vm_compute; reflexivity|]).
  apply elem_of_nil in Hk. destruct Hk.
Defined.

(** The mapping-value names are pairwise distinct, and each of them but
    "idType" is a wire key of the filter. *)
Theorem mapping_value_names :
  (forall v1 v2, value v1 = value v2 -> v1 = v2)
  /\ (forall v, v <> ID_TYPE -> value v ∈ OpenFIGIProperties.wire_keys)
  /\ value ID_TYPE ∉ OpenFIGIProperties.wire_keys.
Proof.
  split; [|split].
  - intros [] []; cbn; intros Heq; try reflexivity; discriminate Heq.
  - intros [] Hv; try congruence; apply list_elem_of_In; cbn; auto 20.
  - intros Hin%list_elem_of_In. cbn in Hin. intuition discriminate.
Qed.

End ResultObjectsMore.

(** ** More on the client *)

Section ClientMore.

Import OpenFIGIApi.

Lemma init_truthy_arguments_witness :
  __init__ unset_environment (Some true) (Some "key"%string)
    (Some "http://localhost"%string) (Some 7)
  = mk (Some true) (Some 7) (Some "key"%string) (Some "http://localhost"%string).
Proof. apply init_truthy_arguments; congruence. Defined.



Lemma perform_request_sent self url method data s w :
  sent (_perform_request self url method data s w).2
  = sent w ++ [mk_request method url data (headers self)].
Proof.
  unfold _perform_request, bind_io, request, log, lift, throw, ret.
  destruct (pending w) as [|r rest]; [reflexivity|].
  destruct (status_code r =? 429), (status_code r =? 413), (status_code r =? 403),
    (truthy (raise_on_error self)), (raise_for_status r), (ok r), (json r);
    reflexivity.
Qed.

(** Every call of [_perform_request] sends exactly one request, the one
    it was asked for, and takes one response.  The request always carries
    the JSON content type; it carries the API key header exactly when the
    client has a non-empty key, and no other header. *)
Theorem perform_request_sends_one self url method data s w :
  sent (_perform_request self url method data s w).2
  = sent w ++ [mk_request method url data (headers self)]
  /\ pending (_perform_request self url method data s w).2 = tl (pending w)
  /\ headers self !! "Content-Type"%string = Some "application/json"%string
  /\ headers self !! "X-OPENFIGI-APIKEY"%string
     = match api_key self with
       | Some (String c key) => Some (String c key)
       | _ => None
       end
  /\ (forall h, h <> "Content-Type"%string -> h <> "X-OPENFIGI-APIKEY"%string ->
                headers self !! h = None).
Proof.
  split; [apply perform_request_sent|].
  split; [apply perform_request_consumes|].
  unfold headers. destruct (api_key self) as [[|c key]|];
    cbn [truthy truthy_option truthy_string fmt default].
  - split; [reflexivity|]. split; [reflexivity|].
    intros h H1 H2. apply lookup_singleton_ne. congruence.
  - split; [reflexivity|]. split; [apply lookup_insert_eq|].
    intros h H1 H2. rewrite lookup_insert_ne by congruence.
    apply lookup_singleton_ne. congruence.
  - split; [reflexivity|]. split; [reflexivity|].
    intros h H1 H2. apply lookup_singleton_ne. congruence.
Qed.

(** A failure status is raised exactly when raise-on-error is on: 429 as
    [RateLimitError], 413 as [PayloadTooLargeError], 403 as
    [AuthenticationError], any other as the generic error of the
    transport; when it is off the result is the empty mapping. *)
Theorem failure_status_policy self url method data s r rest w :
  pending w = r :: rest ->
  is_error_status r = true ->
  (_perform_request self url method data s w).1
  = if truthy (raise_on_error self) then Raise (status_error (status_code r))
    else Ok ∅.
Proof. apply perform_request_error_status. Qed.

Lemma failure_status_policy_witness :
  (_perform_request (mk (Some true) (Some 2) None (Some "u"%string))
     "u" "GET" None None (mk_world [mk_response 403 None] [] [])).1
  = if truthy (raise_on_error (mk (Some true) (Some 2) None (Some "u"%string)))
    then Raise (status_error (status_code (mk_response 403 None)))
    else Ok ∅.
Proof.
  apply (failure_status_policy (mk (Some true) (Some 2) None (Some "u"%string))
           "u" "GET" None None (mk_response 403 None) []); reflexivity.
Defined.

(** A status outside the failure classes is never raised, with
    raise-on-error on or off: the result is the decoded body, or the
    decoding error when the body is not JSON. *)
Theorem success_status_result self url method data s r rest w :
  pending w = r :: rest ->
  is_error_status r = false ->
  (_perform_request self url method data s w).1
  = match json_body r with
    | Some d => Ok d
    | None => Raise JSONDecodeError
    end.
Proof. apply perform_request_ok_status. Qed.

Lemma success_status_result_witness :
  (_perform_request (mk (Some true) (Some 2) None (Some "u"%string))
     "u" "GET" None None (mk_world [mk_response 200 None] [] [])).1
  = Raise JSONDecodeError.
Proof.
  apply (success_status_result (mk (Some true) (Some 2) None (Some "u"%string))
           "u" "GET" None None (mk_response 200 None) []); reflexivity.
Defined.

(** What a request logs does not depend on raise-on-error: a warning on
    429 and on 413, an error on 403 that names the first four characters
    of the key or says that none was supplied, and nothing otherwise. *)
Theorem perform_request_logging self url method data s r rest w :
  pending w = r :: rest ->
  logged (_perform_request self url method data s w).2
  = logged w
    ++ (if status_code r =? 429 then
          [(WARNING,
            "Your application is being rate-limited, try to perform fewer requests"%string)]
        else if status_code r =? 413 then
          [(WARNING,
            "Your application requested too large of a payload, you may want to supply an API key"%string)]
        else if status_code r =? 403 then
          [(ERROR,
            ("Your API key starting with "
             ++ match api_key self with
                | Some (String c key) => substring 0 4 (String c key)
                | _ => "(NOT SUPPLIED)"
                end ++ " is not valid")%string)]
        else []).
Proof.
  intros Hpend.
  assert (Hkey : key_prefix self
                 = match api_key self with
                   | Some (String c key) => substring 0 4 (String c key)
                   | _ => "(NOT SUPPLIED)"%string
                   end).
  { unfold key_prefix. destruct (api_key self) as [[|c key]|]; reflexivity. }
  unfold _perform_request, bind_io, request, log, lift, throw, ret.
  rewrite Hpend, Hkey.
  destruct (Z.eqb_spec (status_code r) 429) as [E429|N429].
  - rewrite E429. cbn [Z.eqb Pos.eqb].
    destruct (truthy (raise_on_error self)), (raise_for_status r), (ok r), (json r);
      reflexivity.
  - destruct (Z.eqb_spec (status_code r) 413) as [E413|N413].
    + rewrite E413. cbn [Z.eqb Pos.eqb].
      destruct (truthy (raise_on_error self)), (raise_for_status r), (ok r), (json r);
        reflexivity.
    + destruct (status_code r =? 403);
        destruct (truthy (raise_on_error self)), (raise_for_status r), (ok r), (json r);
        cbn [logged]; rewrite ?app_nil_r; reflexivity.
Qed.

Lemma perform_request_logging_witness :
  logged (_perform_request (mk (Some false) (Some 2) (Some "secret"%string)
                              (Some "u"%string))
            "u" "GET" None None (mk_world [mk_response 403 None] [] [])).2
  = [(ERROR, "Your API key starting with secr is not valid"%string)].
Proof.
  apply (perform_request_logging
           (mk (Some false) (Some 2) (Some "secret"%string) (Some "u"%string))
           "u" "GET" None None (mk_response 403 None) []).
  reflexivity.
Defined.

(** A failure of the transport itself is not swallowed: when no response
    comes, the request, the search and the listing of values end in the
    transport's exception, whether raise-on-error is on or off, and the
    search has yielded nothing. *)
Theorem transport_failure_propagates `{pf : Platform} self url method data s
    query properties flt v w :
  pending w = [] ->
  OpenFIGIProperties.as_filter (default OpenFIGIProperties.defaults properties)
  = Ok flt ->
  (_perform_request self url method data s w).1 = Raise ConnectionError
  /\ (search self query properties w).1 = mk_gen [] (Some (Raise ConnectionError))
  /\ (mapping_values self (Some v) w).1 = Raise ConnectionError.
Proof.
  intros Hpend Hflt.
  assert (Hreq : forall url method data s,
             _perform_request self url method data s w
             = (Raise ConnectionError,
                mk_world [] (sent w ++ [mk_request method url data (headers self)])
                  (logged w))).
  { intros. unfold _perform_request, bind_io, request. rewrite Hpend. reflexivity. }
  split; [rewrite Hreq; reflexivity|]. split.
  - unfold search. rewrite Hflt. unfold _perform_pagination_request.
    rewrite Hreq. reflexivity.
  - unfold mapping_values, bind_io. rewrite Hreq. reflexivity.
Qed.

Lemma transport_failure_propagates_witness :
  (_perform_request (mk (Some false) (Some 2) None (Some "u"%string))
     "u" "GET" None None (mk_world [] [] [])).1 = Raise ConnectionError
  /\ (@search glibc (mk (Some false) (Some 2) None (Some "u"%string)) "ibm" None
        (mk_world [] [] [])).1
     = mk_gen [] (Some (Raise ConnectionError))
  /\ (mapping_values (mk (Some false) (Some 2) None (Some "u"%string))
        (Some CURRENCY) (mk_world [] [] [])).1 = Raise ConnectionError.
Proof.
  apply (@transport_failure_propagates glibc
           (mk (Some false) (Some 2) None (Some "u"%string)) "u" "GET" None None
           "ibm" None ∅ CURRENCY (mk_world [] [] [])).
  - reflexivity.
  - vm_compute. reflexivity.
Defined.

End ClientMore.

(** ** More on pagination *)

Section PaginationMore.

Import OpenFIGIApi.

(** The loop over pages that each announce a next one, when the request
    for the page after the last of them meets a failure status. *)
Lemma pagination_loop_failure self url method data s :
  forall pages page fuel r rest w,
    forallb is_page (page :: pages) = true ->
    forallb page_continues (page :: pages) = true ->
    pending w = map page_response pages ++ r :: rest ->
    is_error_status r = true ->
    (length pages + 1 < fuel)%nat ->
    (pagination_loop fuel self url method data s Ok page w).1
    = mk_gen (concat (map page_data (page :: pages)))
        (Some (if truthy (raise_on_error self)
               then Raise (status_error (status_code r)) else Ok tt)).
Proof.
  induction pages as [|page' pages IH];
    intros page fuel r rest w Hpg Hcont Hpend Herr Hfuel;
    (destruct fuel as [|fuel]; [lia|]);
    cbn [forallb] in Hpg, Hcont;
    apply andb_true_iff in Hpg as [Hpage Hpg];
    apply andb_true_iff in Hcont as [Hc Hcont];
    rewrite (pagination_loop_step _ _ _ _ _ _ _ _ _ Hpage);
    unfold page_continues in Hc;
    destruct (page_data page) as [|x l] eqn:Hd; try discriminate Hc;
    destruct (page !! "next"%string) as [c|]; try discriminate Hc;
    rewrite for_each_Ok; cbn [map concat]; rewrite ?Hd.
  - cbn [map app] in Hpend.
    pose proof (perform_request_error_status self url method
                  (Some (<["start"%string := c]> data)) (Some s) r rest w
                  Hpend Herr) as Hres.
    destruct (_perform_request self url method
                (Some (<["start"%string := c]> data)) (Some s) w) as [res w'].
    cbn [fst] in Hres. subst res. rewrite app_nil_r.
    destruct (truthy (raise_on_error self)); [reflexivity|].
    destruct fuel as [|fuel]; [cbn in Hfuel; lia|].
    cbn [pagination_loop]. rewrite lookup_empty. cbn [yielded outcome fst].
    rewrite app_nil_r. reflexivity.
  - cbn [map app] in Hpend.
    rewrite (perform_request_page _ _ _ _ _ _ _ _ Hpend).
    specialize (IH page' fuel r rest
                  (mk_world (map page_response pages ++ r :: rest)
                     (sent w ++ [mk_request method url
                                   (Some (<["start"%string := c]> data))
                                   (headers self)]) (logged w))
                  Hpg Hcont eq_refl Herr ltac:(cbn in Hfuel; lia)).
    destruct (pagination_loop fuel self url method data s Ok page' _) as [g w''].
    cbn [fst] in IH. subst g. reflexivity.
Qed.

(** A failure in the middle of a paginated call.  When the pages received
    so far each announced a next one and the request for the following
    page meets a failure status, the items of the pages received have been
    yielded; then, with raise-on-error on, the sequence ends in the
    exception of that status, and with raise-on-error off it ends normally,
    cut short without a sign. *)
Theorem pagination_cut_short self url method data pages r rest w :
  pages <> [] ->
  forallb is_page pages = true ->
  forallb page_continues pages = true ->
  pending w = map page_response pages ++ r :: rest ->
  is_error_status r = true ->
  (_perform_pagination_request self url method data Ok w).1
  = mk_gen (concat (map page_data pages))
      (Some (if truthy (raise_on_error self)
             then Raise (status_error (status_code r)) else Ok tt)).
Proof.
  intros Hne Hpg Hcont Hpend Herr.
  destruct pages as [|page pages]; [congruence|].
  unfold _perform_pagination_request. cbn [map app] in Hpend.
  rewrite (perform_request_page _ _ _ _ _ _ _ _ Hpend).
  apply (pagination_loop_failure self url method data _ pages page _ r rest);
    try assumption; [reflexivity|].
  cbn [pending]. rewrite length_app, length_map. cbn [length]. lia.
Qed.

Lemma pagination_cut_short_witness :
  (_perform_pagination_request (mk (Some false) (Some 2) None (Some "u"%string))
     "u" "POST" ∅ Ok
     (mk_world [page_response (first_page (PStr "a") (PStr "b"));
                mk_response 429 None] [] [])).1
  = mk_gen (concat (map page_data [first_page (PStr "a") (PStr "b")]))
      (Some (if truthy (raise_on_error (mk (Some false) (Some 2) None
                                          (Some "u"%string)))
             then Raise (status_error (status_code (mk_response 429 None)))
             else Ok tt)).
Proof.
  apply (pagination_cut_short (mk (Some false) (Some 2) None (Some "u"%string))
           "u" "POST" ∅ [first_page (PStr "a") (PStr "b")] (mk_response 429 None) []).
  - congruence.
  - vm_compute. reflexivity.
  - vm_compute. reflexivity.
  - reflexivity.
  - reflexivity.
Defined.

Lemma search_yields_objects_witness :
  @search glibc (mk (Some false) (Some 2) None (Some "u"%string)) "ibm" None
    (mk_world [page_response (last_page (PDict {[ "name"%string := PStr "IBM" ]}))]
       [] [])
  = (mk_gen [OpenFIGIObject.from_figi_data {[ "name"%string := PStr "IBM" ]}]
       (Some (Ok tt)),
     mk_world []
       [mk_request "POST" "u/v2/search/" (Some {[ "query"%string := PStr "ibm" ]})
          (headers (mk (Some false) (Some 2) None (Some "u"%string)))]
       []).
Proof.
  apply (@search_yields_objects glibc
           (mk (Some false) (Some 2) None (Some "u"%string)) "ibm" None ∅
           [last_page (PDict {[ "name"%string := PStr "IBM" ]})]
           [{[ "name"%string := PStr "IBM" ]}]
           (mk_world [page_response
                        (last_page (PDict {[ "name"%string := PStr "IBM" ]}))]
              [] [])).
  - vm_compute. reflexivity.
  - vm_compute. reflexivity.
  - vm_compute. reflexivity.
  - reflexivity.
  - vm_compute. reflexivity.
Defined.

Lemma search_error_status_witness :
  (@search glibc (mk (Some false) (Some 2) None (Some "u"%string)) "ibm" None
     (mk_world [mk_response 500 None] [] [])).1
  = mk_gen [] (Some (Ok tt)).
Proof.
  apply (@search_error_status glibc
           (mk (Some false) (Some 2) None (Some "u"%string)) "ibm" None ∅
           (mk_response 500 None) []).
  - vm_compute. reflexivity.
  - reflexivity.
  - reflexivity.
  - reflexivity.
Defined.

Lemma page_requests_repeat self url method data cs :
  Forall (fun rq =>
            req_method rq = method /\ req_url rq = url
            /\ req_headers rq = headers self
            /\ exists body, req_data rq = Some body
                 /\ forall k, k <> "start"%string -> body !! k = data !! k)
         (page_requests self url method data cs).
Proof.
  unfold page_requests. apply Forall_cons. split.
  - repeat split. exists data. auto.
  - apply Forall_map, Forall_forall. intros c _. repeat split.
    exists (<["start"%string := c]> data). split; [reflexivity|].
    intros k Hk. apply lookup_insert_ne. congruence.
Qed.

(** The requests of a paginated call over a service that answers with
    pages: there is one per fetched page, and each repeats the method, the
    URL, the headers and the body of the first one, except for the [start]
    entry of the body. *)
Theorem paginated_requests_repeat self url method data pages w :
  forallb is_page pages = true ->
  ends pages = true ->
  pending w = map page_response pages ->
  exists rqs,
    sent (_perform_pagination_request self url method data Ok w).2 = sent w ++ rqs
    /\ length rqs = length (fetched pages)
    /\ Forall (fun rq =>
                 req_method rq = method /\ req_url rq = url
                 /\ req_headers rq = headers self
                 /\ exists body, req_data rq = Some body
                      /\ forall k, k <> "start"%string -> body !! k = data !! k)
              rqs.
Proof.
  intros Hpg Hends Hpend.
  exists (page_requests self url method data (cursors pages)).
  rewrite (perform_pagination_request_pages self url method data Ok pages w
             (concat (map page_data (fetched pages))) Hpg Hends Hpend
             (for_each_Ok _)).
  split; [reflexivity|]. split; [|apply page_requests_repeat].
  unfold page_requests. cbn [length]. rewrite length_map.
  symmetry. apply fetched_cursors; [|assumption].
  intros ->. discriminate Hends.
Qed.

Lemma paginated_requests_repeat_witness :
  exists rqs,
    sent (_perform_pagination_request
            (mk (Some false) (Some 2) None (Some "u"%string)) "u" "POST"
            {[ "query"%string := PStr "ibm" ]} Ok
            (mk_world (map page_response
                         [first_page (PStr "a") (PStr "b"); last_page (PStr "c")])
               [] [])).2
    = sent (mk_world (map page_response
                        [first_page (PStr "a") (PStr "b"); last_page (PStr "c")])
              [] []) ++ rqs
    /\ length rqs
       = length (fetched [first_page (PStr "a") (PStr "b"); last_page (PStr "c")])
    /\ Forall (fun rq =>
                 req_method rq = "POST"%string /\ req_url rq = "u"%string
                 /\ req_headers rq
                    = headers (mk (Some false) (Some 2) None (Some "u"%string))
                 /\ exists body, req_data rq = Some body
                      /\ forall k, k <> "start"%string ->
                           body !! k
                           = ({[ "query"%string := PStr "ibm" ]}
                                : gmap string pyval) !! k)
              rqs.
Proof.
  apply (paginated_requests_repeat
           (mk (Some false) (Some 2) None (Some "u"%string)) "u" "POST"
           {[ "query"%string := PStr "ibm" ]}
           [first_page (PStr "a") (PStr "b"); last_page (PStr "c")]).
  - vm_compute. reflexivity.
  - vm_compute. reflexivity.
  - reflexivity.
Defined.

(** The listing of values: without a name no request goes out and the
    call ends in a [ValueError]; with a name, one GET goes to the path of
    that name, its [data] being the serialisation of [None].  On a success
    status whose body is a JSON object the answer is what the object holds
    under "values", whatever that is, or a [KeyError] when it has no such
    key; a body that is not JSON ends the call in the decoding error. *)
Theorem mapping_values_outcome self v r rest w :
  pending w = r :: rest ->
  is_error_status r = false ->
  mapping_values self None w = (Raise ValueError, w)
  /\ (mapping_values self (Some v) w).1
     = match json_body r with
       | None => Raise JSONDecodeError
       | Some d => match d !! "values"%string with
                   | Some x => Ok x
                   | None => Raise (KeyError "values")
                   end
       end
  /\ sent (mapping_values self (Some v) w).2
     = sent w ++ [mk_request "GET"
                    (fmt (api_url self) ++ "/v2/mapping/values/" ++ value v)
                    None (headers self)].
Proof.
  intros Hpend Hok. split; [reflexivity|].
  pose proof (perform_request_ok_status self
                (fmt (api_url self) ++ "/v2/mapping/values/" ++ value v) "GET"
                None None r rest w Hpend Hok) as Hres.
  pose proof (perform_request_sent self
                (fmt (api_url self) ++ "/v2/mapping/values/" ++ value v) "GET"
                None None w) as Hsent.
  unfold mapping_values, bind_io, json in *.
  destruct (_perform_request self
              (fmt (api_url self) ++ "/v2/mapping/values/" ++ value v) "GET"
              None None w) as [res w'].
  cbn [fst snd] in Hres, Hsent. subst res.
  destruct (json_body r) as [d|]; [|split; [reflexivity | exact Hsent]].
  destruct (d !! "values"%string); split; try reflexivity; exact Hsent.
Qed.

Lemma mapping_values_outcome_witness :
  mapping_values (mk (Some false) (Some 2) None (Some "u"%string)) None
    (mk_world [mk_response 200 (Some {[ "values"%string := PList [PStr "US"] ]})]
       [] [])
  = (Raise ValueError,
     mk_world [mk_response 200 (Some {[ "values"%string := PList [PStr "US"] ]})]
       [] [])
  /\ (mapping_values (mk (Some false) (Some 2) None (Some "u"%string))
        (Some EXCHANGE_CODE)
        (mk_world [mk_response 200 (Some {[ "values"%string := PList [PStr "US"] ]})]
           [] [])).1
     = Ok (PList [PStr "US"])
  /\ sent (mapping_values (mk (Some false) (Some 2) None (Some "u"%string))
             (Some EXCHANGE_CODE)
             (mk_world
                [mk_response 200 (Some {[ "values"%string := PList [PStr "US"] ]})]
                [] [])).2
     = [mk_request "GET" "u/v2/mapping/values/exchCode" None
          (headers (mk (Some false) (Some 2) None (Some "u"%string)))].
Proof.
  exact (mapping_values_outcome (mk (Some false) (Some 2) None (Some "u"%string))
           EXCHANGE_CODE
           (mk_response 200 (Some {[ "values"%string := PList [PStr "US"] ]})) []
           (mk_world
              [mk_response 200 (Some {[ "values"%string := PList [PStr "US"] ]})]
              [] [])
           eq_refl eq_refl).
Defined.

(** The exceptions of the three statuses the client knows are assertion
    errors, as the validation errors are; the error of any other failure
    status is not. *)
Theorem status_errors_are_assertion_errors (code : Z) :
  is_assertion_error (status_error code)
  = (code =? 429) || (code =? 413) || (code =? 403).
Proof.
  unfold status_error.
  destruct (code =? 429), (code =? 413), (code =? 403); reflexivity.
Qed.

End PaginationMore.
